(** * signoz-metrics-adapter: query translation and series aggregation

    A shallow embedding of the two providers of the repository and of the
    clients they query SigNoz through:

    - [Prom]: the provider that speaks the Prometheus-style range API
      (GET /api/v1/query_range, values transported as strings), with its
      client [signozClient.query];
    - [V5]: the provider of [adapter/provider/provider.go], which posts a
      builder query to /api/v5/query_range through [SignozClient.Query].

    Go's [float64] is the kernel's binary64 [float]; Go maps are [gmap]s;
    effects (requests handed to the transport, klog warnings, readings of
    the wall clock) are threaded through a state-and-error monad.  Library
    code the repository only calls (net/http, net/url, encoding/json,
    strconv, the Kubernetes helpers) is a record of collaborators,
    [Externals], that every operation takes as its first argument. *)

From Stdlib Require Import ZArith QArith Qabs Floats.
From stdpp Require Import base option list strings gmap sorting pretty.

Local Open Scope string_scope.
Local Open Scope list_scope.
Local Open Scope Z_scope.

(** ** Numbers *)

Definition int64_min : Z := - 2 ^ 63.
Definition int64_max : Z := 2 ^ 63 - 1.

Definition int64_wrap (z : Z) : Z := (z + 2 ^ 63) mod 2 ^ 64 - 2 ^ 63.

Definition in_int64 (z : Z) : bool := (int64_min <=? z) && (z <=? int64_max).

(** The integer part of [(-1)^s * m * 2^e], fraction discarded. *)
Definition trunc_finite (s : bool) (m : positive) (e : Z) : Z :=
  let q := if 0 <=? e then Z.pos m * 2 ^ e else Z.pos m / 2 ^ (- e) in
  if s then - q else q.

(** Go's conversion [int64(f)] of a [float64].  The language leaves the
    result implementation-dependent when the value is not representable
    (NaN, infinities, magnitude beyond the type); [indefinite] is what the
    platform answers then. *)
Definition float64_to_int64 (indefinite : float -> Z) (f : float) : Z :=
  match Prim2SF f with
  | S754_zero _ => 0
  | S754_finite s m e =>
      let z := trunc_finite s m e in
      if in_int64 z then z else indefinite f
  | S754_infinity _ | S754_nan => indefinite f
  end.


(** [resource.NewMilliQuantity(v, resource.DecimalSI)]: [v] thousandths. *)
Record Quantity := NewMilliQuantity { MilliValue : Z }.

(** ** Values decoded from JSON into [interface{}] / [any] *)

#[local] Set Warnings "-register-all".

Inductive any :=
| AnyNil
| AnyBool (b : bool)
| AnyNumber (f : float)
| AnyString (s : string)
| AnyArray (l : list any)
| AnyObject (l : list (string * any)).

(** [raw, _ = v.(string)]: the string, or the zero value when [v] holds
    something else. *)
Definition assert_string (v : any) : string :=
  match v with
  | AnyString s => s
  | _ => ""
  end.

(** ** Errors and results *)

Inductive arg :=
| ArgStr (s : string)
| ArgInt (z : Z)
| ArgErr (e : error)
with error :=
| Errorf (format : string) (args : list arg)
| ExternalError (what : string)
| MetricNotFoundForError (group resource metric name : string).

Inductive result (A : Type) :=
| Ok (a : A)
| Err (e : error).
Arguments Ok {A} a.
Arguments Err {A} e.

(** ** Kubernetes-side values *)

Record GroupResource := { Group : string; Resource : string }.

Record CustomMetricInfo := {
  InfoGroupResource : GroupResource;
  InfoMetric : string;
  InfoNamespaced : bool
}.

Record NamespacedName := { Namespace : string; Name : string }.

Record ObjectReference := {
  Kind : string;
  APIVersion : string;
  RefNamespace : string;
  RefName : string
}.

Record MetricValue := {
  DescribedObject : ObjectReference;
  MetricName : string;
  MetricTimestamp : Z;
  MetricQuantity : Quantity
}.

Record MetricValueList := { Items : list MetricValue }.

(** ** The outside world *)

(** A document produced by [json.Marshal]. *)
Inductive json :=
| JNull
| JBool (b : bool)
| JInt (z : Z)
| JString (s : string)
| JArray (l : list json)
| JObject (fields : list (string * json)).

Record Request := {
  Method : string;
  Target : string;
  Header : list (string * string);
  Payload : option json
}.

Record Response := {
  StatusCode : Z;
  Body : result string
}.

Inductive LogEntry :=
| Warningf (format : string) (args : list arg).

(** What a call has done so far: the requests given to the transport (latest
    first), the warnings logged (latest first), and how many times the wall
    clock was read. *)
Record World := {
  sent : list Request;
  warnings : list LogEntry;
  clock : nat
}.

Definition World0 : World := {| sent := []; warnings := []; clock := 0 |}.

Definition M (A : Type) : Type := World -> result A * World.

Definition ret {A} (a : A) : M A := fun w => (Ok a, w).

Definition fail {A} (e : error) : M A := fun w => (Err e, w).

Definition bind {A B} (m : M A) (k : A -> M B) : M B :=
  fun w =>
    match m w with
    | (Ok a, w') => k a w'
    | (Err e, w') => (Err e, w')
    end.

Definition lift {A} (r : result A) : M A := fun w => (r, w).

(** [x, err := f(...); if err != nil { return nil, fmt.Errorf(ctx, err) }] *)
Definition wrap {A} (format : string) (r : result A) : M A :=
  fun w =>
    match r with
    | Ok a => (Ok a, w)
    | Err e => (Err (Errorf format [ArgErr e]), w)
    end.

(** The same around a call that acts on the world. *)
Definition wrapM {A} (format : string) (m : M A) : M A :=
  fun w =>
    match m w with
    | (Ok a, w') => (Ok a, w')
    | (Err e, w') => (Err (Errorf format [ArgErr e]), w')
    end.

Declare Scope go_scope.
Delimit Scope go_scope with go.
Notation "x <- m ;; k" := (bind m (fun x => k))
  (at level 100, m at next level, right associativity) : go_scope.
Notation "m ;;; k" := (bind m (fun _ => k))
  (at level 100, right associativity) : go_scope.
Local Open Scope go_scope.

(** The world after one more warning. *)
Definition warn (entry : LogEntry) (w : World) : World :=
  {| sent := sent w; warnings := entry :: warnings w; clock := clock w |}.

Definition klog_Warningf (format : string) (args : list arg) : M unit :=
  fun w => (Ok tt, warn (Warningf format args) w).

(** The collaborators: library and Kubernetes code the providers call. *)
Record Externals := {
  (* time.Now(), as nanoseconds since the epoch, at the n-th reading *)
  wallclock : nat -> Z;
  (* net/url.Parse, reduced to whether the text is accepted *)
  url_Parse : string -> result string;
  (* url.Values.Encode and URL.String over the parsed endpoint *)
  url_String : string -> list (string * string) -> string;
  (* http.Client.Do *)
  http_Do : Request -> result Response;
  (* strconv.ParseFloat(s, 64); the float returned next to an error is
     never looked at by the callers *)
  strconv_ParseFloat : string -> result float;
  (* fmt.Sprintf("%v", v) for the operands that are not strings *)
  fmt_v : any -> string;
  (* int64(f) where Go leaves it to the implementation *)
  int64_indefinite : float -> Z;
  (* helpers.ReferenceFor(mapper, name, info) *)
  ReferenceFor : NamespacedName -> CustomMetricInfo -> result ObjectReference;
  (* helpers.ListObjectNames(mapper, client, namespace, selector, info) *)
  ListObjectNames : string -> string -> CustomMetricInfo -> result (list string)
}.

(** The world after one more reading of the clock. *)
Definition tick (w : World) : World :=
  {| sent := sent w; warnings := warnings w; clock := S (clock w) |}.

Definition time_Now (env : Externals) : M Z :=
  fun w => (Ok (wallclock env (clock w)), tick w).

(** [http.NewRequest(method, url, body)]: the URL text must parse. *)
Definition http_NewRequest (env : Externals) (method url : string)
    (body : option json) : result Request :=
  match url_Parse env url with
  | Ok _ => Ok {| Method := method; Target := url; Header := []; Payload := body |}
  | Err e => Err e
  end.

(** [req.Header.Set(key, value)]: the value replaces any earlier one. *)
Definition Header_Set (key value : string) (req : Request) : Request :=
  {| Method := Method req; Target := Target req;
     Header := (key, value) :: filter (fun kv => kv.1 ≠ key) (Header req);
     Payload := Payload req |}.

(** [client.Http.Do(req)]: the request leaves the process. *)
Definition Client_Do (env : Externals) (req : Request) : M Response :=
  fun w =>
    (http_Do env req,
     {| sent := req :: sent w; warnings := warnings w; clock := clock w |}).

(** How many requests a call has handed to the transport. *)
Definition calls (w : World) : nat := length (sent w).

(** ** Series and their aggregation *)

Definition podLabelKey : string := "k8s.pod.name".

Record seriesValue := {
  Labels : gmap string string;
  Value : float
}.

(** [m[key]] on a Go map: the zero value when the key is absent. *)
Definition map_index (m : gmap string string) (key : string) : string :=
  default "" (m !! key).

(** The first loop of [GetMetricByName]:
    [if s.Labels[podLabelKey] == name.Name { total += s.Value; found = true }]. *)
Definition add_if_named (name : string) (acc : float * bool) (s : seriesValue)
    : float * bool :=
  if decide (map_index (Labels s) podLabelKey = name)
  then ((acc.1 + Value s)%float, true)
  else acc.

(** The second loop: [total += s.Value] for every series. *)
Definition add_value (total : float) (s : seriesValue) : float :=
  (total + Value s)%float.

(** [total] as [GetMetricByName] holds it once both loops are through. *)
Definition total_for (name : string) (series : list seriesValue) : float :=
  let '(total, found) := foldl (add_if_named name) (0%float, false) series in
  if found then total else foldl add_value total series.

(** The loop filling [byPod] in [GetMetricBySelector]:
    [if pod, ok := s.Labels[podLabelKey]; ok { byPod[pod] += s.Value }]. *)
Definition add_to_pod (byPod : gmap string float) (s : seriesValue)
    : gmap string float :=
  match Labels s !! podLabelKey with
  | Some pod => <[pod := (default 0%float (byPod !! pod) + Value s)%float]> byPod
  | None => byPod
  end.

Definition by_pod (series : list seriesValue) : gmap string float :=
  foldl add_to_pod ∅ series.

(** [resource.NewMilliQuantity(int64(total*1000), resource.DecimalSI)] *)
Definition milli (env : Externals) (total : float) : Quantity :=
  NewMilliQuantity (float64_to_int64 (int64_indefinite env) (total * 1000)%float).

(** The [custom_metrics.MetricValue] literal both operations build. *)
Definition new_MetricValue (env : Externals) (objRef : ObjectReference)
    (info : CustomMetricInfo) (now : Z) (value : float) : MetricValue :=
  {| DescribedObject := objRef;
     MetricName := InfoMetric info;
     MetricTimestamp := now;
     MetricQuantity := milli env value |}.

(** [GetMetricByName] from the series on: the two loops, the reference to
    the described object and the value returned. *)
Definition value_for_object (env : Externals) (name : NamespacedName)
    (info : CustomMetricInfo) (series : list seriesValue) : M MetricValue :=
  let total := total_for (Name name) series in
  objRef <- lift (ReferenceFor env name info) ;;
  now <- time_Now env ;;
  ret (new_MetricValue env objRef info now total).

(** The loop over [podNames] in [GetMetricBySelector]; [items] is the slice
    appended to. *)
Fixpoint items_for (env : Externals) (namespace : string)
    (info : CustomMetricInfo) (byPod : gmap string float)
    (podNames : list string) (items : list MetricValue)
    : M (list MetricValue) :=
  match podNames with
  | [] => ret items
  | podName :: rest =>
      match byPod !! podName with
      | None => items_for env namespace info byPod rest items
      | Some value =>
          let name := {| Namespace := namespace; Name := podName |} in
          objRef <- lift (ReferenceFor env name info) ;;
          now <- time_Now env ;;
          items_for env namespace info byPod rest
            (items ++ [new_MetricValue env objRef info now value])
      end
  end.

(** [GetMetricBySelector] from the series on. *)
Definition values_for_selector (env : Externals) (namespace selector : string)
    (info : CustomMetricInfo) (series : list seriesValue) : M MetricValueList :=
  podNames <- lift (ListObjectNames env namespace selector info) ;;
  items <- items_for env namespace info (by_pod series) podNames [] ;;
  ret {| Items := items |}.

(** [isAllowedMetric] *)
Fixpoint isAllowedMetric (metrics : list string) (name : string) : bool :=
  match metrics with
  | [] => false
  | m :: rest => if decide (m = name) then true else isAllowedMetric rest name
  end.

(** [-time.Duration(p.timeRangeMinutes) * time.Minute]: the minutes are
    negated, then multiplied, in [int64] nanoseconds.  Instants are
    nanoseconds since the epoch, and [t.Add(d)] is [t + d]. *)
Definition lookback (timeRangeMinutes : Z) : Z :=
  int64_wrap (int64_wrap (- timeRangeMinutes) * 60000000000).

(** The one-character string holding a double quote. *)
Definition dquote : string := String (Ascii.ascii_of_nat 34) "".

(** ** The Prometheus-style provider and client *)

Module Prom.

Record signozClient := {
  endpoint : string;
  apiKey : string
}.

Record signozQueryOptions := {
  Start : Z;
  End_ : Z;
  Step : Z;
  Query : string
}.

Record promResult := {
  Metric : gmap string string;
  ValuePair : list any;          (* Value  []interface{}   `json:"value"`  *)
  Values : list (list any)       (* Values [][]interface{} `json:"values"` *)
}.

Record promData := {
  ResultType : string;
  Result : list promResult
}.

Record promResponse := {
  Status : string;
  Data : promData
}.

Record signozProvider := {
  timeRangeMinutes : Z;
  signoz : signozClient;
  metrics : list string;
  labelFilters : gmap string string
}.

(** The text [Series] goes on to parse: the second element of the last
    pair of [values], or of [value] when [values] is empty; empty when the
    pair is too short or holds no string there. *)
Definition selected_raw (r : promResult) : string :=
  match last (Values r) with
  | Some point =>
      match point !! 1%nat with
      | Some v => assert_string v
      | None => ""
      end
  | None =>
      match ValuePair r !! 1%nat with
      | Some v => assert_string v
      | None => ""
      end
  end.

(** The body of [promResponse.Series], [results] being the slice built. *)
Fixpoint Series_loop (env : Externals) (rs : list promResult)
    (results : list seriesValue) : M (list seriesValue) :=
  match rs with
  | [] => ret results
  | r :: rest =>
      let raw := selected_raw r in
      if decide (raw = "") then Series_loop env rest results
      else
        match strconv_ParseFloat env raw with
        | Err err =>
            klog_Warningf "skipping non-numeric value %q: %v"
              [ArgStr raw; ArgErr err] ;;;
            Series_loop env rest results
        | Ok v =>
            Series_loop env rest (results ++ [{| Labels := Metric r; Value := v |}])
        end
  end.

Definition Series (env : Externals) (promResp : promResponse)
    : M (list seriesValue) :=
  Series_loop env (Result (Data promResp)) [].

Section Client.
Variable env : Externals.
(* json.Unmarshal(body, &promResp) *)
Variable json_Unmarshal : string -> result promResponse.

Definition query (client : signozClient) (opts : signozQueryOptions)
    : M (list seriesValue) :=
  u <- wrap "parsing endpoint URL: %w"
         (url_Parse env (endpoint client +:+ "/api/v1/query_range")) ;;
  let q := [("query", Query opts);
            ("start", pretty (Start opts / 1000000000));
            ("end", pretty (End_ opts / 1000000000));
            ("step", pretty (Step opts))] in
  req <- wrap "creating request: %w"
           (http_NewRequest env "GET" (url_String env u q) None) ;;
  let req := Header_Set "SIGNOZ-API-KEY" (apiKey client) req in
  resp <- wrapM "querying signoz: %w" (Client_Do env req) ;;
  body <- wrap "reading response: %w" (Body resp) ;;
  if decide (StatusCode resp ≠ 200)
  then fail (Errorf "signoz returned %d: %s"
               [ArgInt (StatusCode resp); ArgStr body])
  else
    promResp <- wrap "decoding response: %w" (json_Unmarshal body) ;;
    if decide (Status promResp ≠ "success")
    then fail (Errorf "query failed with status: %s" [ArgStr (Status promResp)])
    else Series env promResp.

(** [buildQuery]: the metric, and the label filters as selectors in the
    order of their keys. *)
Definition buildQuery (p : signozProvider) (metric : string) : string :=
  if decide (size (labelFilters p) = 0%nat) then metric
  else
    let keys := merge_sort String.le (map fst (map_to_list (labelFilters p))) in
    let selectors :=
      map (fun k => k +:+ "=" +:+ dquote +:+ map_index (labelFilters p) k +:+ dquote)
        keys in
    metric +:+ "{" +:+ String.concat "," selectors +:+ "}".

(** The query both operations issue. *)
Definition fetch (p : signozProvider) (metric : string) : M (list seriesValue) :=
  let q := buildQuery p metric in
  end_ <- time_Now env ;;
  now <- time_Now env ;;
  query (signoz p)
    {| Query := q;
       End_ := end_;
       Start := now + lookback (timeRangeMinutes p);
       Step := 60 |}.

Definition GetMetricByName (p : signozProvider) (name : NamespacedName)
    (info : CustomMetricInfo) : M MetricValue :=
  if negb (isAllowedMetric (metrics p) (InfoMetric info))
  then fail (MetricNotFoundForError
               (Group (InfoGroupResource info)) (Resource (InfoGroupResource info))
               (InfoMetric info) (Name name))
  else
    series <- fetch p (InfoMetric info) ;;
    value_for_object env name info series.

Definition GetMetricBySelector (p : signozProvider) (namespace selector : string)
    (info : CustomMetricInfo) : M MetricValueList :=
  if negb (isAllowedMetric (metrics p) (InfoMetric info))
  then ret {| Items := [] |}
  else
    series <- fetch p (InfoMetric info) ;;
    values_for_selector env namespace selector info series.
End Client.

End Prom.

(** ** The provider of adapter/provider and the v5 client *)

Module V5.

Record SignozClient := {
  Endpoint : string;
  ApiKey : string
}.

Record SignozMetricAggregation := {
  AggMetricName : string;       (* MetricName       `json:"metricName"`            *)
  Temporality : string;         (*                  `json:"temporality,omitempty"` *)
  TimeAggregation : string;     (*                  `json:"timeAggregation"`       *)
  SpaceAggregation : string;    (*                  `json:"spaceAggregation"`      *)
  ReduceTo : string             (*                  `json:"reduceTo,omitempty"`    *)
}.

Record SignozQueryGroupBy := {
  GroupByName : string;         (* Name             `json:"name"`          *)
  FieldDataType : string;       (*                  `json:"fieldDataType"` *)
  FieldContext : string         (*                  `json:"fieldContext"`  *)
}.

Record SignozQueryFilter := {
  Expression : string           (*                  `json:"expression,omitempty"` *)
}.

(** Pointers that may be nil ([Disabled], [Filter], [Having]) are options. *)
Record SignozQuerySpec := {
  SpecName : string;                            (* Name `json:"name"`          *)
  Signal : string;                              (* `json:"signal"`             *)
  StepInterval : Z;                             (* `json:"stepInterval"`       *)
  Disabled : option bool;                       (* `json:"disabled,omitempty"` *)
  Aggregations : list SignozMetricAggregation;  (* `json:"aggregations"`       *)
  GroupBy : list SignozQueryGroupBy;            (* `json:"groupBy,omitempty"`  *)
  Filter : option SignozQueryFilter;            (* `json:"filter,omitempty"`   *)
  Having : option SignozQueryFilter;            (* `json:"having,omitempty"`   *)
  Limit : Z;                                    (* `json:"limit,omitempty"`    *)
  Offset : Z                                    (* `json:"offset,omitempty"`   *)
}.

Record SignozQuery := {
  Type_ : string;               (* Type `json:"type"` *)
  Spec : SignozQuerySpec        (*      `json:"spec"` *)
}.

Record SignozCompositeQuery := {
  Queries : list SignozQuery    (* `json:"queries"` *)
}.

Record SignozQueryRangeOptions := {
  Start : Z;                              (* `json:"start"`          *)
  End_ : Z;                               (* `json:"end"`            *)
  RequestType : string;                   (* `json:"requestType"`    *)
  CompositeQuery : SignozCompositeQuery   (* `json:"compositeQuery"` *)
}.

Record SignozLabelKey := { KeyName : string }.

Record SignozLabel := {
  Key : SignozLabelKey;
  LabelValue : any              (* Value any `json:"value"` *)
}.

Record SignozSeriesValue := {
  Timestamp : Z;
  PointValue : float            (* Value float64 `json:"value"` *)
}.

Record SignozResultSeries := {
  SeriesLabels : list SignozLabel;        (* Labels `json:"labels,omitempty"` *)
  Values : list SignozSeriesValue
}.

Record SignozResultAggregation := {
  Index : Z;
  Alias : string;
  AggSeries : list SignozResultSeries     (* Series `json:"series"` *)
}.

Record SignozQueryResult := {
  QueryName : string;
  ResultAggregations : list SignozResultAggregation;
  PredictedSeries : list SignozResultSeries;
  UpperBoundSeries : list SignozResultSeries;
  LowerBoundSeries : list SignozResultSeries;
  AnomalyScores : list SignozResultSeries
}.

Record SignozResponseWarning := {
  Message : string;
  WarningURL : string
}.

Record SignozQueryRangeResponseData := {
  Results : list SignozQueryResult;
  Warning : option SignozResponseWarning;
  Warnings : list SignozResponseWarning
}.

Record SignozResponseMeta := {
  RowsScanned : Z;
  BytesScanned : Z;
  DurationMs : Z
}.

Record SignozQueryRangeResponseWrapper := {
  WrapperType : string;
  WrapperMeta : SignozResponseMeta;
  WrapperData : SignozQueryRangeResponseData
}.

Record SignozQueryRangeResponse := {
  Status : string;
  Data : SignozQueryRangeResponseWrapper
}.

Record signozProvider := {
  timeRangeMinutes : Z;
  signoz : SignozClient;
  metrics : list string;
  filterExpression : string
}.

(** *** [json.Marshal] of the query, following the struct tags *)

(** A field tagged [omitempty] is left out when [empty] holds of it. *)
Definition field (key : string) (omit : bool) (v : json) : list (string * json) :=
  if omit then [] else [(key, v)].

Definition string_empty (s : string) : bool := bool_decide (s = "").

Definition Marshal_Aggregation (a : SignozMetricAggregation) : json :=
  JObject (field "metricName" false (JString (AggMetricName a))
        ++ field "temporality" (string_empty (Temporality a)) (JString (Temporality a))
        ++ field "timeAggregation" false (JString (TimeAggregation a))
        ++ field "spaceAggregation" false (JString (SpaceAggregation a))
        ++ field "reduceTo" (string_empty (ReduceTo a)) (JString (ReduceTo a))).

Definition Marshal_GroupBy (g : SignozQueryGroupBy) : json :=
  JObject (field "name" false (JString (GroupByName g))
        ++ field "fieldDataType" false (JString (FieldDataType g))
        ++ field "fieldContext" false (JString (FieldContext g))).

Definition Marshal_Filter (f : SignozQueryFilter) : json :=
  JObject (field "expression" (string_empty (Expression f)) (JString (Expression f))).

Definition pointer_field {A} (key : string) (marshal : A -> json) (p : option A)
    : list (string * json) :=
  match p with
  | Some a => [(key, marshal a)]
  | None => []
  end.

Definition Marshal_Spec (sp : SignozQuerySpec) : json :=
  JObject (field "name" false (JString (SpecName sp))
        ++ field "signal" false (JString (Signal sp))
        ++ field "stepInterval" false (JInt (StepInterval sp))
        ++ pointer_field "disabled" JBool (Disabled sp)
        ++ field "aggregations" false (JArray (map Marshal_Aggregation (Aggregations sp)))
        ++ field "groupBy" (bool_decide (GroupBy sp = []))
             (JArray (map Marshal_GroupBy (GroupBy sp)))
        ++ pointer_field "filter" Marshal_Filter (Filter sp)
        ++ pointer_field "having" Marshal_Filter (Having sp)
        ++ field "limit" (bool_decide (Limit sp = 0)) (JInt (Limit sp))
        ++ field "offset" (bool_decide (Offset sp = 0)) (JInt (Offset sp))).

Definition Marshal_Query (q : SignozQuery) : json :=
  JObject [("type", JString (Type_ q)); ("spec", Marshal_Spec (Spec q))].

Definition Marshal (o : SignozQueryRangeOptions) : json :=
  JObject [("start", JInt (Start o));
           ("end", JInt (End_ o));
           ("requestType", JString (RequestType o));
           ("compositeQuery",
            JObject [("queries", JArray (map Marshal_Query (Queries (CompositeQuery o))))])].

(** *** Reading the response *)

(** [fmt.Sprintf("%v", v)] *)
Definition Sprintf_v (env : Externals) (v : any) : string :=
  match v with
  | AnyString s => s
  | AnyNil => "<nil>"
  | AnyBool true => "true"
  | AnyBool false => "false"
  | _ => fmt_v env v
  end.

(** [LabelMap]: a later label of the same name overwrites an earlier one. *)
Definition LabelMap (env : Externals) (s : SignozResultSeries) : gmap string string :=
  foldl (fun m l => <[KeyName (Key l) := Sprintf_v env (LabelValue l)]> m)
        ∅ (SeriesLabels s).

(** The innermost loop body of [Series]: what one series appends. *)
Definition Series_of (env : Externals) (s : SignozResultSeries) : list seriesValue :=
  match last (Values s) with
  | None => []
  | Some point => [{| Labels := LabelMap env s; Value := PointValue point |}]
  end.

Definition Series (env : Externals) (resp : SignozQueryRangeResponse)
    : list seriesValue :=
  foldl (fun results qr =>
           foldl (fun results agg =>
                    foldl (fun results s => results ++ Series_of env s)
                          results (AggSeries agg))
                 results (ResultAggregations qr))
        [] (Results (WrapperData (Data resp))).

Section Client.
Variable env : Externals.
(* json.Unmarshal(bodyBytes, &responseData) *)
Variable json_Unmarshal : string -> result SignozQueryRangeResponse.

(** [SignozClient.Query].  [json.Marshal] cannot fail on these structs, so
    its error branch has no counterpart. *)
Definition Query (client : SignozClient) (query : SignozQueryRangeOptions)
    : M SignozQueryRangeResponse :=
  let body := Marshal query in
  let endpointUrl := Endpoint client +:+ "/api/v5/query_range" in
  request <- wrap "invalid request: %w"
               (http_NewRequest env "POST" endpointUrl (Some body)) ;;
  let request := Header_Set "Signoz-Api-Key" (ApiKey client) request in
  let request := Header_Set "Content-Type" "application/json" request in
  response <- wrapM "failed post signoz query: %w" (Client_Do env request) ;;
  bodyBytes <- wrap "failed to read response body: %w" (Body response) ;;
  if decide (StatusCode response ≠ 200)
  then fail (Errorf "signoz returned non-OK status code: %d, body: %s"
               [ArgInt (StatusCode response); ArgStr bodyBytes])
  else
    responseData <- wrap "failed to decode response body: %w"
                      (json_Unmarshal bodyBytes) ;;
    ret responseData.

(** The query before the filter is considered. *)
Definition base_query (metricName : string) : SignozQuery :=
  {| Type_ := "builder_query";
     Spec := {| SpecName := "A";
                Signal := "metrics";
                StepInterval := 60;
                Disabled := None;
                Aggregations := [{| AggMetricName := metricName;
                                    Temporality := "";
                                    TimeAggregation := "avg";
                                    SpaceAggregation := "avg";
                                    ReduceTo := "" |}];
                GroupBy := [{| GroupByName := podLabelKey;
                               FieldDataType := "string";
                               FieldContext := "resource" |}];
                Filter := None;
                Having := None;
                Limit := 0;
                Offset := 0 |} |}.

(** [query.Spec.Filter = &SignozQueryFilter{Expression: e}] *)
Definition set_Filter (e : string) (q : SignozQuery) : SignozQuery :=
  let sp := Spec q in
  {| Type_ := Type_ q;
     Spec := {| SpecName := SpecName sp; Signal := Signal sp;
                StepInterval := StepInterval sp; Disabled := Disabled sp;
                Aggregations := Aggregations sp; GroupBy := GroupBy sp;
                Filter := Some {| Expression := e |};
                Having := Having sp; Limit := Limit sp; Offset := Offset sp |} |}.

(** The [SignozQuery] that [buildQuery] puts in the composite query. *)
Definition build_SignozQuery (p : signozProvider) (metricName : string) : SignozQuery :=
  let query := base_query metricName in
  if decide (filterExpression p ≠ "")
  then set_Filter (filterExpression p) query
  else query.

(** [buildQuery]; the clock is read for [Start], then for [End]. *)
Definition buildQuery (p : signozProvider) (metricName : string)
    : M SignozQueryRangeOptions :=
  let query := build_SignozQuery p metricName in
  t1 <- time_Now env ;;
  t2 <- time_Now env ;;
  ret {| RequestType := "time_series";
         Start := (t1 + lookback (timeRangeMinutes p)) / 1000000;
         End_ := t2 / 1000000;
         CompositeQuery := {| Queries := [query] |} |}.

(** The query both operations issue, and the series read off the answer. *)
Definition fetch (p : signozProvider) (metric : string) : M (list seriesValue) :=
  q <- buildQuery p metric ;;
  queryResponse <- Query (signoz p) q ;;
  ret (Series env queryResponse).

Definition GetMetricByName (p : signozProvider) (name : NamespacedName)
    (info : CustomMetricInfo) : M MetricValue :=
  if negb (isAllowedMetric (metrics p) (InfoMetric info))
  then fail (MetricNotFoundForError
               (Group (InfoGroupResource info)) (Resource (InfoGroupResource info))
               (InfoMetric info) (Name name))
  else
    series <- fetch p (InfoMetric info) ;;
    value_for_object env name info series.

Definition GetMetricBySelector (p : signozProvider) (namespace selector : string)
    (info : CustomMetricInfo) : M MetricValueList :=
  if negb (isAllowedMetric (metrics p) (InfoMetric info))
  then ret {| Items := [] |}
  else
    series <- fetch p (InfoMetric info) ;;
    values_for_selector env namespace selector info series.
End Client.

End V5.

(** ** Vocabulary of the properties *)

(** The sum of the values of a list of series: float additions from zero,
    in the order of the list. *)
Definition sum_values (series : list seriesValue) : float :=
  foldl add_value 0%float series.

(** The identifying label of [s], as the provider reads it, is [name]. *)
Definition named (name : string) (s : seriesValue) : Prop :=
  map_index (Labels s) podLabelKey = name.

(** [s] carries the identifying label, with value [pod]. *)
Definition carries (pod : string) (s : seriesValue) : Prop :=
  Labels s !! podLabelKey = Some pod.

#[global] Instance named_dec name s : Decision (named name s).
Proof. unfold named. apply _. Defined.

#[global] Instance carries_dec pod s : Decision (carries pod s).
Proof. unfold carries. apply _. Defined.

(** The number a float denotes, when it denotes one. *)
Definition float_value (f : float) : option Q :=
  match Prim2SF f with
  | S754_zero _ => Some 0%Q
  | S754_finite s m e =>
      let q := if 0 <=? e then (Z.pos m * 2 ^ e) # 1
               else Z.pos m # Z.to_pos (2 ^ (- e)) in
      Some (if s then Qopp q else q)
  | S754_infinity _ | S754_nan => None
  end.

(** The member [key] of a JSON object. *)
Fixpoint member (key : string) (fields : list (string * json)) : option json :=
  match fields with
  | [] => None
  | (k, v) :: rest => if decide (k = key) then Some v else member key rest
  end.

Definition json_field (key : string) (j : json) : option json :=
  match j with
  | JObject fields => member key fields
  | _ => None
  end.

(** The series of a v5 response, in the order [Series] visits them. *)
Definition all_series (resp : V5.SignozQueryRangeResponse)
    : list V5.SignozResultSeries :=
  qr ← V5.Results (V5.WrapperData (V5.Data resp));
  agg ← V5.ResultAggregations qr;
  V5.AggSeries agg.

(** What [promResponse.Series] keeps of a result, and the warning it logs. *)
Definition kept (env : Externals) (r : Prom.promResult) : option seriesValue :=
  if decide (Prom.selected_raw r = "") then None
  else match strconv_ParseFloat env (Prom.selected_raw r) with
       | Ok v => Some {| Labels := Prom.Metric r; Value := v |}
       | Err _ => None
       end.

Definition warned (env : Externals) (r : Prom.promResult) : option LogEntry :=
  if decide (Prom.selected_raw r = "") then None
  else match strconv_ParseFloat env (Prom.selected_raw r) with
       | Ok _ => None
       | Err err =>
           Some (Warningf "skipping non-numeric value %q: %v"
                   [ArgStr (Prom.selected_raw r); ArgErr err])
       end.

(** The selectors [Prom.buildQuery] writes between the braces: one per
    label filter, in the order of the keys. *)
Definition selectors (filters : gmap string string) : list string :=
  map (fun k => k +:+ "=" +:+ dquote +:+ map_index filters k +:+ dquote)
      (merge_sort String.le (map fst (map_to_list filters))).

(** What a list of metric values says: the object and the quantity of each
    item, in order. *)
Definition reported (l : MetricValueList) : list (ObjectReference * Quantity) :=
  map (fun it => (DescribedObject it, MetricQuantity it)) (Items l).

(** One entry per listed object that some series carries the label of, with
    the sum of those series; nothing for the other objects. *)
Definition expected_report (env : Externals) (ref_of : string -> ObjectReference)
    (series : list seriesValue) (podNames : list string)
    : list (ObjectReference * Quantity) :=
  omap (fun podName =>
          match filter (carries podName) series with
          | [] => None
          | l => Some (ref_of podName, milli env (sum_values l))
          end) podNames.


(** ** Test doubles *)

Module Stub.

Definition pod_ref (name : NamespacedName) : ObjectReference :=
  {| Kind := "Pod"; APIVersion := "v1";
     RefNamespace := Namespace name; RefName := Name name |}.

Definition syntax_error : error :=
  ExternalError "strconv.ParseFloat: invalid syntax".

(** A canned [strconv.ParseFloat]: its answers on the few texts the
    examples use. *)
Definition ParseFloat (s : string) : result float :=
  if decide (s = "2") then Ok 2%float
  else if decide (s = "3") then Ok 3%float
  else if decide (s = "4") then Ok 4%float
  else if decide (s = "5") then Ok 5%float
  else if decide (s = "7") then Ok 7%float
  else if decide (s = "10") then Ok 10%float
  else if decide (s = "99") then Ok 99%float
  else if decide (s = "NaN") then Ok nan
  else Err syntax_error.

(** A transport that answers every request with [answer], and a cluster
    whose selector matches [pods]. *)
Definition env (answer : result Response) (pods : list string) : Externals :=
  {| wallclock := fun n => 1700000000000000000 + Z.of_nat n;
     url_Parse := fun s => Ok s;
     url_String := fun u _ => u;
     http_Do := fun _ => answer;
     strconv_ParseFloat := ParseFloat;
     fmt_v := fun _ => "?";
     int64_indefinite := fun _ => int64_min;
     ReferenceFor := fun name _ => Ok (pod_ref name);
     ListObjectNames := fun _ _ _ => Ok pods |}.

Definition ok200 : result Response := Ok {| StatusCode := 200; Body := Ok "{}" |}.

Definition pods_info (metric : string) : CustomMetricInfo :=
  {| InfoGroupResource := {| Group := ""; Resource := "pods" |};
     InfoMetric := metric; InfoNamespaced := true |}.

Definition pod (name : string) : NamespacedName :=
  {| Namespace := "default"; Name := name |}.

(** A v5 series labelled with a pod name, holding the given points. *)
Definition v5_series (podName : string) (values : list float) : V5.SignozResultSeries :=
  {| V5.SeriesLabels := [{| V5.Key := {| V5.KeyName := podLabelKey |};
                            V5.LabelValue := AnyString podName |}];
     V5.Values := imap (fun i v => {| V5.Timestamp := Z.of_nat i;
                                       V5.PointValue := v |}) values |}.

Definition v5_response (status : string) (series : list V5.SignozResultSeries)
    : V5.SignozQueryRangeResponse :=
  {| V5.Status := status;
     V5.Data :=
       {| V5.WrapperType := "time_series";
          V5.WrapperMeta := {| V5.RowsScanned := 0; V5.BytesScanned := 0;
                               V5.DurationMs := 0 |};
          V5.WrapperData :=
            {| V5.Results :=
                 [{| V5.QueryName := "A";
                     V5.ResultAggregations :=
                       [{| V5.Index := 0; V5.Alias := ""; V5.AggSeries := series |}];
                     V5.PredictedSeries := []; V5.UpperBoundSeries := [];
                     V5.LowerBoundSeries := []; V5.AnomalyScores := [] |}];
               V5.Warning := None; V5.Warnings := [] |} |} |}.

Definition v5_provider (filter : string) : V5.signozProvider :=
  {| V5.timeRangeMinutes := 5;
     V5.signoz := {| V5.Endpoint := "https://signoz.example.com"; V5.ApiKey := "key" |};
     V5.metrics := ["phpfpm_active_processes"];
     V5.filterExpression := filter |}.

(** A Prometheus-style result labelled with a pod name whose range holds
    the given texts. *)
Definition prom_result (podName : string) (texts : list string) : Prom.promResult :=
  {| Prom.Metric := {[ podLabelKey := podName ]};
     Prom.ValuePair := [];
     Prom.Values := map (fun t => [AnyNumber 1700000000%float; AnyString t]) texts |}.

Definition prom_response (status : string) (results : list Prom.promResult)
    : Prom.promResponse :=
  {| Prom.Status := status;
     Prom.Data := {| Prom.ResultType := "matrix"; Prom.Result := results |} |}.

Definition prom_provider (filters : gmap string string) : Prom.signozProvider :=
  {| Prom.timeRangeMinutes := 5;
     Prom.signoz := {| Prom.endpoint := "https://signoz.example.com";
                       Prom.apiKey := "key" |};
     Prom.metrics := ["phpfpm_active_processes"];
     Prom.labelFilters := filters |}.

(** Decoders that read the given response off any body. *)
Definition v5_decoder (resp : V5.SignozQueryRangeResponse)
    : string -> result V5.SignozQueryRangeResponse :=
  fun _ => Ok resp.

Definition prom_decoder (resp : Prom.promResponse) : string -> result Prom.promResponse :=
  fun _ => Ok resp.

Definition metric : string := "phpfpm_active_processes".

(** Two series of another pod, worth 3 and 4. *)
Definition others_v5 : V5.SignozQueryRangeResponse :=
  v5_response "success" [v5_series "other-pod" [3%float];
                         v5_series "other-pod" [4%float]].

(** A series of the target pod worth 3, one of another pod worth 99. *)
Definition target_v5 : V5.SignozQueryRangeResponse :=
  v5_response "success" [v5_series "target-pod" [3%float];
                         v5_series "other-pod" [99%float]].

(** Two series of pod-a worth 2 and 3, one of pod-b worth 10. *)
Definition group_v5 : V5.SignozQueryRangeResponse :=
  v5_response "success" [v5_series "pod-a" [2%float];
                         v5_series "pod-a" [3%float];
                         v5_series "pod-b" [10%float]].

Definition group_pods : list string := ["pod-a"; "pod-b"; "pod-c"].

Definition cluster : Externals := env ok200 group_pods.

Definition empty_v5 : V5.SignozQueryRangeResponse := v5_response "success" [].

(** The series the v5 provider reads off a response, and the world once it
    has fetched them. *)
Definition series_v5 (resp : V5.SignozQueryRangeResponse) : list seriesValue :=
  V5.Series cluster resp.

Definition fetched_v5 (resp : V5.SignozQueryRangeResponse) : World :=
  (V5.fetch cluster (v5_decoder resp) (v5_provider "") metric World0).2.

Definition target : NamespacedName := pod "target-pod".

(** A metric that is not on the allow-list of the providers above. *)
Definition unknown : CustomMetricInfo := pods_info "http_requests_total".

(** A response the backend marks as failed, still holding a series. *)
Definition failed_v5 : V5.SignozQueryRangeResponse :=
  v5_response "error" [v5_series "target-pod" [3%float]].

Definition failed_prom : Prom.promResponse :=
  prom_response "error" [prom_result "target-pod" ["3"]].

(** A result whose only pair lacks its value, and one whose range ends
    with the given texts after a first pair holding 5. *)
Definition missing_value : Prom.promResult :=
  {| Prom.Metric := {[ podLabelKey := "pod-a" ]};
     Prom.ValuePair := [];
     Prom.Values := [[AnyNumber 1700000000%float]] |}.

Definition five_then (text : string) : Prom.promResult :=
  prom_result "pod-a" ["5"; text].


(** A response with a well-formed result, one whose text is no number, one
    without a value and one whose text is NaN. *)
Definition mixed_prom : Prom.promResponse :=
  prom_response "success"
    [five_then "7"; prom_result "pod-a" ["abc"]; missing_value;
     prom_result "pod-b" ["NaN"]].

Definition prod_filters : gmap string string :=
  <["service.name" := "myapp"]> (<["deployment.environment" := "prod"]> ∅).

Definition prom_options : Prom.signozQueryOptions :=
  {| Prom.Query := metric;
     Prom.End_ := 1700000000000000000;
     Prom.Start := 1699999700000000000;
     Prom.Step := 60 |}.

End Stub.

(** ** The rest of the provider interface *)

Record ExternalMetricInfo := { ExternalMetric : string }.

Record ExternalMetricValue := {
  ExternalMetricName : string;
  ExternalMetricLabels : gmap string string;
  ExternalTimestamp : Z;
  ExternalQuantity : Quantity
}.

Record ExternalMetricValueList := { ExternalItems : list ExternalMetricValue }.

(** [ListAllMetrics], the same in both providers: it reads [p.metrics]
    only, appending one info per metric. *)
Definition ListAllMetrics (metrics : list string) : list CustomMetricInfo :=
  foldl (fun infos m =>
           infos ++ [{| InfoGroupResource := {| Group := ""; Resource := "pods" |};
                        InfoMetric := m;
                        InfoNamespaced := true |}])
        [] metrics.

(** [ListAllExternalMetrics], likewise. *)
Definition ListAllExternalMetrics (metrics : list string) : list ExternalMetricInfo :=
  foldl (fun infos m => infos ++ [{| ExternalMetric := m |}]) [] metrics.

(** ** The first provider: one fixed metric, queried by the provider itself *)

Module Legacy.

Definition metricName : string := "phpfpm_active_processes".

Record signozProvider := {
  endpoint : string;
  apiKey : string
}.

Section Client.
Variable env : Externals.
(* json.Unmarshal(body, &promResp) *)
Variable json_Unmarshal : string -> result Prom.promResponse.

(** [querySignoz]: the clock is read once, the window is the last thirty
    minutes, and the key is sent only when there is one.  The loop over the
    results is the one of [promResponse.Series]. *)
Definition querySignoz (p : signozProvider) : M (list seriesValue) :=
  now <- time_Now env ;;
  u <- wrap "parsing endpoint URL: %w"
         (url_Parse env (endpoint p +:+ "/api/v1/query_range")) ;;
  let q := [("query", metricName);
            ("start", pretty ((now + - (30 * 60000000000)) / 1000000000));
            ("end", pretty (now / 1000000000));
            ("step", "60")] in
  req <- wrap "creating request: %w"
           (http_NewRequest env "GET" (url_String env u q) None) ;;
  let req := if decide (apiKey p ≠ "")
             then Header_Set "SIGNOZ-API-KEY" (apiKey p) req
             else req in
  resp <- wrapM "querying signoz: %w" (Client_Do env req) ;;
  body <- wrap "reading response: %w" (Body resp) ;;
  if decide (StatusCode resp ≠ 200)
  then fail (Errorf "signoz returned %d: %s"
               [ArgInt (StatusCode resp); ArgStr body])
  else
    promResp <- wrap "decoding response: %w" (json_Unmarshal body) ;;
    if decide (Prom.Status promResp ≠ "success")
    then fail (Errorf "query failed with status: %s"
                 [ArgStr (Prom.Status promResp)])
    else Prom.Series_loop env (Prom.Result (Prom.Data promResp)) [].

(** [GetExternalMetric]: the total over every series, as one value. *)
Definition GetExternalMetric (p : signozProvider) (info : ExternalMetricInfo)
    : M ExternalMetricValueList :=
  if decide (ExternalMetric info ≠ metricName)
  then ret {| ExternalItems := [] |}
  else
    series <- wrapM "querying signoz: %w" (querySignoz p) ;;
    let total := foldl add_value 0%float series in
    now <- time_Now env ;;
    ret {| ExternalItems :=
             [{| ExternalMetricName := metricName;
                 ExternalMetricLabels := ∅;
                 ExternalTimestamp := now;
                 ExternalQuantity := milli env total |}] |}.
End Client.

End Legacy.

(** ** More vocabulary *)

(** A computation hands at most [n] requests to the transport, whatever
    the collaborators answer, and never takes one back. *)
Definition sends_at_most {A} (n : nat) (m : M A) : Prop :=
  ∀ w, ∃ reqs, sent (m w).2 = reqs ++ sent w ∧ (length reqs <= n)%nat.

(** The value of a header of a request. *)
Fixpoint header (key : string) (h : list (string * string)) : option string :=
  match h with
  | [] => None
  | (k, v) :: rest => if decide (k = key) then Some v else header key rest
  end.

(** The renderings of the labels of a series that are called [key], in the
    order of the series. *)
Definition renderings (env : Externals) (key : string) (s : V5.SignozResultSeries)
    : list string :=
  omap (fun l => if decide (V5.KeyName (V5.Key l) = key)
                 then Some (V5.Sprintf_v env (V5.LabelValue l))
                 else None)
       (V5.SeriesLabels s).

(** The largest look-back, in minutes, whose nanoseconds fit [int64]. *)
Definition max_lookback_minutes : Z := 153722867.

(** More test doubles: a transport that fails, and one that answers 503. *)
Module Stub2.

Definition refused : error := ExternalError "dial tcp: connection refused".

Definition offline : Externals := Stub.env (Err refused) Stub.group_pods.

Definition unavailable : Externals :=
  Stub.env (Ok {| StatusCode := 503; Body := Ok "busy" |}) Stub.group_pods.

(** A cluster in which no object reference resolves. *)
Definition no_mapping : error := ExternalError "no matches for kind".

Definition unmapped : Externals :=
  {| wallclock := wallclock Stub.cluster;
     url_Parse := url_Parse Stub.cluster;
     url_String := url_String Stub.cluster;
     http_Do := http_Do Stub.cluster;
     strconv_ParseFloat := strconv_ParseFloat Stub.cluster;
     fmt_v := fmt_v Stub.cluster;
     int64_indefinite := int64_indefinite Stub.cluster;
     ReferenceFor := fun _ _ => Err no_mapping;
     ListObjectNames := ListObjectNames Stub.cluster |}.

End Stub2.

(** * Properties *)

(** ** The monad *)

Lemma bind_ok {A B} (m : M A) (k : A -> M B) w a w' :
  m w = (Ok a, w') -> bind m k w = k a w'.
Proof. unfold bind. by intros ->. Qed.

(** ** Lists *)

Lemma filter_none {A} (P : A -> Prop) `{!∀ x, Decision (P x)} (l : list A) :
  ¬ Exists P l -> filter P l = [].
Proof.
  induction l as [|x l IH]; intros Hno; [done|].
  rewrite filter_cons_False; [|intros Hx; apply Hno; by left].
  apply IH. intros Hl. apply Hno. by right.
Qed.

(** ** Aggregation for one object *)

(** For a name that is not empty, the label as the provider reads it is the
    name exactly when the series carries the label with that value; a series
    without the label reads as the empty name. *)
Lemma named_carries name s :
  name ≠ "" -> named name s <-> carries name s.
Proof.
  intros Hne. unfold named, carries, map_index.
  destruct (Labels s !! podLabelKey) as [v|]; cbn.
  - split; congruence.
  - split; congruence.
Qed.

Lemma add_if_named_total name series acc :
  (foldl (add_if_named name) acc series).1
  = foldl add_value acc.1 (filter (named name) series).
Proof.
  revert acc. induction series as [|s series IH]; intros acc; [done|].
  cbn [foldl]. rewrite IH. unfold add_if_named.
  rewrite filter_cons. fold (named name s).
  destruct (decide (named name s)); done.
Qed.

Lemma add_if_named_found name series acc :
  (foldl (add_if_named name) acc series).2
  = acc.2 || bool_decide (Exists (named name) series).
Proof.
  revert acc. induction series as [|s series IH]; intros acc.
  - cbn. by rewrite orb_false_r.
  - cbn [foldl]. rewrite IH. unfold add_if_named. fold (named name s).
    destruct (decide (named name s)) as [Hs|Hs]; cbn [snd].
    + rewrite (bool_decide_eq_true_2 (Exists _ (s :: series))); [|by left].
      by rewrite orb_true_r.
    + f_equal. apply bool_decide_ext. rewrite Exists_cons. tauto.
Qed.

Lemma total_for_unfold name series :
  total_for name series
  = if bool_decide (Exists (named name) series)
    then sum_values (filter (named name) series)
    else sum_values series.
Proof.
  unfold total_for.
  pose proof (add_if_named_total name series (0%float, false)) as Ht.
  pose proof (add_if_named_found name series (0%float, false)) as Hf.
  destruct (foldl (add_if_named name) (0%float, false) series) as [total found].
  cbn in Ht, Hf. subst total found.
  case_bool_decide as Hex; [done|].
  by rewrite (filter_none _ _ Hex).
Qed.

Lemma total_for_fallback name series :
  Forall (fun s => ¬ named name s) series ->
  total_for name series = sum_values series.
Proof.
  intros Hnone. rewrite total_for_unfold.
  rewrite bool_decide_eq_false_2; [done|].
  by apply Forall_Exists_neg.
Qed.

Lemma total_for_match name series :
  Exists (named name) series ->
  total_for name series = sum_values (filter (named name) series).
Proof.
  intros Hex. rewrite total_for_unfold. by rewrite bool_decide_eq_true_2.
Qed.

Lemma value_for_object_ok env name info series ref w :
  ReferenceFor env name info = Ok ref ->
  value_for_object env name info series w
  = (Ok (new_MetricValue env ref info (wallclock env (clock w))
           (total_for (Name name) series)), tick w).
Proof.
  intros Href. unfold value_for_object, lift, bind. by rewrite Href.
Qed.

(** ** Aggregation per pod *)

Lemma foldl_add_to_pod series (m : gmap string float) pod :
  foldl add_to_pod m series !! pod
  = match filter (carries pod) series with
    | [] => m !! pod
    | l => Some (foldl add_value (default 0%float (m !! pod)) l)
    end.
Proof.
  revert m. induction series as [|s series IH]; intros m; [done|].
  cbn [foldl]. rewrite IH. rewrite filter_cons.
  destruct (decide (carries pod s)) as [Hc|Hc]; unfold add_to_pod.
  - rewrite Hc, lookup_insert_eq. cbn [default foldl].
    by destruct (filter _ series).
  - unfold carries in Hc. destruct (Labels s !! podLabelKey) as [pod'|]; [|done].
    rewrite lookup_insert_ne; [done|congruence].
Qed.

Lemma by_pod_lookup series pod :
  by_pod series !! pod
  = match filter (carries pod) series with
    | [] => None
    | l => Some (sum_values l)
    end.
Proof. unfold by_pod. rewrite foldl_add_to_pod. by rewrite lookup_empty. Qed.

(** The loop over the listed objects never touches the transport or the
    log, and reports the objects that have an entry, in the order listed. *)
Lemma items_for_report env namespace info series ref_of podNames :
  (∀ podName, podName ∈ podNames ->
     ReferenceFor env {| Namespace := namespace; Name := podName |} info
     = Ok (ref_of podName)) ->
  ∀ items w, ∃ items' w',
    items_for env namespace info (by_pod series) podNames items w = (Ok items', w')
    ∧ reported {| Items := items' |}
      = reported {| Items := items |} ++ expected_report env ref_of series podNames
    ∧ sent w' = sent w ∧ warnings w' = warnings w.
Proof.
  unfold reported, expected_report. cbn [Items].
  induction podNames as [|podName rest IH]; intros Href items w.
  - exists items, w. cbn. by rewrite app_nil_r.
  - cbn [items_for omap list_omap]. rewrite by_pod_lookup.
    assert (∀ p, p ∈ rest ->
              ReferenceFor env {| Namespace := namespace; Name := p |} info
              = Ok (ref_of p)) as Hrest.
    { intros p Hp. apply Href. by right. }
    destruct (filter (carries podName) series) as [|s l] eqn:Hf.
    + apply (IH Hrest).
    + unfold bind at 1, lift. rewrite (Href podName); [|by left].
      unfold bind at 1, time_Now.
      destruct (IH Hrest
                  (items ++ [new_MetricValue env (ref_of podName) info
                               (wallclock env (clock w)) (sum_values (s :: l))])
                  (tick w)) as (items' & w' & -> & Hrep & Hs & Hw).
      exists items', w'. split; [done|]. split; [|done].
      rewrite Hrep, map_app. cbn. by rewrite <- app_assoc.
Qed.

Lemma values_for_selector_report env namespace selector info series podNames ref_of w :
  ListObjectNames env namespace selector info = Ok podNames ->
  (∀ podName, podName ∈ podNames ->
     ReferenceFor env {| Namespace := namespace; Name := podName |} info
     = Ok (ref_of podName)) ->
  ∃ l w',
    values_for_selector env namespace selector info series w = (Ok l, w')
    ∧ reported l = expected_report env ref_of series podNames
    ∧ sent w' = sent w ∧ warnings w' = warnings w.
Proof.
  intros Hlist Href. unfold values_for_selector, lift.
  unfold bind at 1. rewrite Hlist.
  destruct (items_for_report env namespace info series ref_of podNames Href [] w)
    as (items' & w' & Hrun & Hrep & Hs & Hw).
  exists {| Items := items' |}, w'. unfold bind, ret. rewrite Hrun.
  split; [done|]. by rewrite Hrep.
Qed.

(** ** The operations, once the series are there *)

Section Operations.
Context (env : Externals).

Lemma V5_GetMetricByName_allowed un p name info w series w1 :
  isAllowedMetric (V5.metrics p) (InfoMetric info) = true ->
  V5.fetch env un p (InfoMetric info) w = (Ok series, w1) ->
  V5.GetMetricByName env un p name info w
  = value_for_object env name info series w1.
Proof.
  intros Hal Hfetch. unfold V5.GetMetricByName. rewrite Hal. cbn [negb].
  by apply bind_ok.
Qed.

Lemma Prom_GetMetricByName_allowed un p name info w series w1 :
  isAllowedMetric (Prom.metrics p) (InfoMetric info) = true ->
  Prom.fetch env un p (InfoMetric info) w = (Ok series, w1) ->
  Prom.GetMetricByName env un p name info w
  = value_for_object env name info series w1.
Proof.
  intros Hal Hfetch. unfold Prom.GetMetricByName. rewrite Hal. cbn [negb].
  by apply bind_ok.
Qed.

Lemma V5_GetMetricBySelector_allowed un p namespace selector info w series w1 :
  isAllowedMetric (V5.metrics p) (InfoMetric info) = true ->
  V5.fetch env un p (InfoMetric info) w = (Ok series, w1) ->
  V5.GetMetricBySelector env un p namespace selector info w
  = values_for_selector env namespace selector info series w1.
Proof.
  intros Hal Hfetch. unfold V5.GetMetricBySelector. rewrite Hal. cbn [negb].
  by apply bind_ok.
Qed.

Lemma Prom_GetMetricBySelector_allowed un p namespace selector info w series w1 :
  isAllowedMetric (Prom.metrics p) (InfoMetric info) = true ->
  Prom.fetch env un p (InfoMetric info) w = (Ok series, w1) ->
  Prom.GetMetricBySelector env un p namespace selector info w
  = values_for_selector env namespace selector info series w1.
Proof.
  intros Hal Hfetch. unfold Prom.GetMetricBySelector. rewrite Hal. cbn [negb].
  by apply bind_ok.
Qed.
End Operations.

(** ** Value for one object *)

(** C1. When no series of the list the backend returned has its identifying
    label equal to the requested object name, [GetMetricByName] (in both
    providers) answers without error, and the quantity of the value it
    returns is [int64(total*1000)] thousandths for [total] the sum of the
    values of all the series of the list. *)
Theorem GetMetricByName_fallback env name info series ref :
  Forall (fun s => ¬ named (Name name) s) series ->
  ReferenceFor env name info = Ok ref ->
  (∀ un p w w1,
     isAllowedMetric (V5.metrics p) (InfoMetric info) = true ->
     V5.fetch env un p (InfoMetric info) w = (Ok series, w1) ->
     V5.GetMetricByName env un p name info w
     = (Ok {| DescribedObject := ref;
              MetricName := InfoMetric info;
              MetricTimestamp := wallclock env (clock w1);
              MetricQuantity :=
                NewMilliQuantity
                  (float64_to_int64 (int64_indefinite env)
                     (sum_values series * 1000)%float) |}, tick w1))
  ∧ (∀ un p w w1,
       isAllowedMetric (Prom.metrics p) (InfoMetric info) = true ->
       Prom.fetch env un p (InfoMetric info) w = (Ok series, w1) ->
       Prom.GetMetricByName env un p name info w
       = (Ok {| DescribedObject := ref;
                MetricName := InfoMetric info;
                MetricTimestamp := wallclock env (clock w1);
                MetricQuantity :=
                  NewMilliQuantity
                    (float64_to_int64 (int64_indefinite env)
                       (sum_values series * 1000)%float) |}, tick w1)).
Proof.
  intros Hnone Href. split; intros un p w w1 Hal Hfetch.
  - rewrite (V5_GetMetricByName_allowed env un p name info w series w1 Hal Hfetch).
    rewrite (value_for_object_ok env name info series ref w1 Href).
    by rewrite total_for_fallback.
  - rewrite (Prom_GetMetricByName_allowed env un p name info w series w1 Hal Hfetch).
    rewrite (value_for_object_ok env name info series ref w1 Href).
    by rewrite total_for_fallback.
Qed.

(** C3. When at least one series has its identifying label equal to the
    requested object name, the quantity of the value [GetMetricByName]
    returns is [int64(total*1000)] thousandths for [total] the sum of the
    values of the matching series only. *)
Theorem GetMetricByName_direct_match env name info series ref :
  Exists (named (Name name)) series ->
  ReferenceFor env name info = Ok ref ->
  (∀ un p w w1,
     isAllowedMetric (V5.metrics p) (InfoMetric info) = true ->
     V5.fetch env un p (InfoMetric info) w = (Ok series, w1) ->
     V5.GetMetricByName env un p name info w
     = (Ok {| DescribedObject := ref;
              MetricName := InfoMetric info;
              MetricTimestamp := wallclock env (clock w1);
              MetricQuantity :=
                NewMilliQuantity
                  (float64_to_int64 (int64_indefinite env)
                     (sum_values (filter (named (Name name)) series) * 1000)%float) |},
        tick w1))
  ∧ (∀ un p w w1,
       isAllowedMetric (Prom.metrics p) (InfoMetric info) = true ->
       Prom.fetch env un p (InfoMetric info) w = (Ok series, w1) ->
       Prom.GetMetricByName env un p name info w
       = (Ok {| DescribedObject := ref;
                MetricName := InfoMetric info;
                MetricTimestamp := wallclock env (clock w1);
                MetricQuantity :=
                  NewMilliQuantity
                    (float64_to_int64 (int64_indefinite env)
                       (sum_values (filter (named (Name name)) series) * 1000)%float) |},
          tick w1)).
Proof.
  intros Hex Href. split; intros un p w w1 Hal Hfetch.
  - rewrite (V5_GetMetricByName_allowed env un p name info w series w1 Hal Hfetch).
    rewrite (value_for_object_ok env name info series ref w1 Href).
    by rewrite total_for_match.
  - rewrite (Prom_GetMetricByName_allowed env un p name info w series w1 Hal Hfetch).
    rewrite (value_for_object_ok env name info series ref w1 Href).
    by rewrite total_for_match.
Qed.

Lemma GetMetricByName_fallback_witness :
  (V5.GetMetricByName Stub.cluster (Stub.v5_decoder Stub.others_v5)
     (Stub.v5_provider "") Stub.target (Stub.pods_info Stub.metric) World0).1
  = Ok {| DescribedObject := Stub.pod_ref Stub.target;
          MetricName := Stub.metric;
          MetricTimestamp := 1700000000000000002;
          MetricQuantity := NewMilliQuantity 7000 |}.
Proof.
  refine (eq_trans
            (f_equal fst
               (proj1 (GetMetricByName_fallback Stub.cluster Stub.target
                         (Stub.pods_info Stub.metric) (Stub.series_v5 Stub.others_v5)
                         (Stub.pod_ref Stub.target) _ _)
                  (Stub.v5_decoder Stub.others_v5) (Stub.v5_provider "") World0
                  (Stub.fetched_v5 Stub.others_v5) _ _)) _).
  - apply (bool_decide_unpack _). vm_compute. exact I.
  - reflexivity.
  - reflexivity.
  - vm_compute. reflexivity.
  - vm_compute. reflexivity.
Defined.

Lemma GetMetricByName_direct_match_witness :
  (V5.GetMetricByName Stub.cluster (Stub.v5_decoder Stub.target_v5)
     (Stub.v5_provider "") Stub.target (Stub.pods_info Stub.metric) World0).1
  = Ok {| DescribedObject := Stub.pod_ref Stub.target;
          MetricName := Stub.metric;
          MetricTimestamp := 1700000000000000002;
          MetricQuantity := NewMilliQuantity 3000 |}.
Proof.
  refine (eq_trans
            (f_equal fst
               (proj1 (GetMetricByName_direct_match Stub.cluster Stub.target
                         (Stub.pods_info Stub.metric) (Stub.series_v5 Stub.target_v5)
                         (Stub.pod_ref Stub.target) _ _)
                  (Stub.v5_decoder Stub.target_v5) (Stub.v5_provider "") World0
                  (Stub.fetched_v5 Stub.target_v5) _ _)) _).
  - apply (bool_decide_unpack _). vm_compute. exact I.
  - reflexivity.
  - reflexivity.
  - vm_compute. reflexivity.
  - vm_compute. reflexivity.
Defined.

(** ** Nothing to aggregate *)

Lemma items_for_empty env namespace info podNames items w :
  items_for env namespace info ∅ podNames items w = (Ok items, w).
Proof.
  induction podNames as [|podName rest IH]; [done|].
  cbn [items_for]. by rewrite lookup_empty.
Qed.

Lemma values_for_selector_empty env namespace selector info podNames w :
  ListObjectNames env namespace selector info = Ok podNames ->
  values_for_selector env namespace selector info [] w = (Ok {| Items := [] |}, w).
Proof.
  intros Hlist. unfold values_for_selector, lift. unfold bind at 1. rewrite Hlist.
  unfold bind, by_pod. cbn [foldl]. by rewrite items_for_empty.
Qed.

Lemma value_for_object_empty env name info ref w :
  ReferenceFor env name info = Ok ref ->
  value_for_object env name info [] w
  = (Ok {| DescribedObject := ref; MetricName := InfoMetric info;
           MetricTimestamp := wallclock env (clock w);
           MetricQuantity := NewMilliQuantity 0 |}, tick w).
Proof.
  intros Href. unfold value_for_object, lift, bind. rewrite Href. reflexivity.
Qed.

(** C9. When the series list is empty, [GetMetricByName] answers the value
    0 without error and [GetMetricBySelector] answers an empty list of
    values, in both providers. *)
Theorem empty_series_zero_and_empty env name namespace selector info ref podNames :
  ReferenceFor env name info = Ok ref ->
  ListObjectNames env namespace selector info = Ok podNames ->
  (∀ un p w w1,
     isAllowedMetric (V5.metrics p) (InfoMetric info) = true ->
     V5.fetch env un p (InfoMetric info) w = (Ok [], w1) ->
     V5.GetMetricByName env un p name info w
     = (Ok {| DescribedObject := ref; MetricName := InfoMetric info;
              MetricTimestamp := wallclock env (clock w1);
              MetricQuantity := NewMilliQuantity 0 |}, tick w1)
     ∧ V5.GetMetricBySelector env un p namespace selector info w
       = (Ok {| Items := [] |}, w1))
  ∧ (∀ un p w w1,
       isAllowedMetric (Prom.metrics p) (InfoMetric info) = true ->
       Prom.fetch env un p (InfoMetric info) w = (Ok [], w1) ->
       Prom.GetMetricByName env un p name info w
       = (Ok {| DescribedObject := ref; MetricName := InfoMetric info;
                MetricTimestamp := wallclock env (clock w1);
                MetricQuantity := NewMilliQuantity 0 |}, tick w1)
       ∧ Prom.GetMetricBySelector env un p namespace selector info w
         = (Ok {| Items := [] |}, w1)).
Proof.
  intros Href Hlist.
  split; intros un p w w1 Hal Hfetch; split.
  - rewrite (V5_GetMetricByName_allowed env un p name info w [] w1 Hal Hfetch).
    exact (value_for_object_empty env name info ref w1 Href).
  - rewrite (V5_GetMetricBySelector_allowed env un p _ _ info w [] w1 Hal Hfetch).
    exact (values_for_selector_empty env _ _ info podNames w1 Hlist).
  - rewrite (Prom_GetMetricByName_allowed env un p name info w [] w1 Hal Hfetch).
    exact (value_for_object_empty env name info ref w1 Href).
  - rewrite (Prom_GetMetricBySelector_allowed env un p _ _ info w [] w1 Hal Hfetch).
    exact (values_for_selector_empty env _ _ info podNames w1 Hlist).
Qed.

Lemma empty_series_zero_and_empty_witness :
  V5.GetMetricByName Stub.cluster (Stub.v5_decoder Stub.empty_v5)
    (Stub.v5_provider "") Stub.target (Stub.pods_info Stub.metric) World0
  = (Ok {| DescribedObject := Stub.pod_ref Stub.target;
           MetricName := InfoMetric (Stub.pods_info Stub.metric);
           MetricTimestamp := wallclock Stub.cluster (clock (Stub.fetched_v5 Stub.empty_v5));
           MetricQuantity := NewMilliQuantity 0 |},
     tick (Stub.fetched_v5 Stub.empty_v5))
  ∧ V5.GetMetricBySelector Stub.cluster (Stub.v5_decoder Stub.empty_v5)
      (Stub.v5_provider "") "default" "app=web" (Stub.pods_info Stub.metric) World0
    = (Ok {| Items := [] |}, Stub.fetched_v5 Stub.empty_v5).
Proof.
  refine (proj1 (empty_series_zero_and_empty Stub.cluster Stub.target
                   "default" "app=web" (Stub.pods_info Stub.metric)
                   (Stub.pod_ref Stub.target) Stub.group_pods _ _)
            (Stub.v5_decoder Stub.empty_v5) (Stub.v5_provider "") World0
            (Stub.fetched_v5 Stub.empty_v5) _ _).
  - reflexivity.
  - reflexivity.
  - reflexivity.
  - vm_compute. reflexivity.
Defined.

(** ** Values for a group of objects *)

(** C2. [GetMetricBySelector] keeps a running total per value of the
    identifying label: a series without the label adds to no total, the total
    of a label value is the sum of the series carrying it, and the answer
    holds one value per listed object that has a total, none for the others. *)
Theorem GetMetricBySelector_sums_per_pod
    env namespace selector info series podNames ref_of :
  ListObjectNames env namespace selector info = Ok podNames ->
  (∀ podName, podName ∈ podNames ->
     ReferenceFor env {| Namespace := namespace; Name := podName |} info
     = Ok (ref_of podName)) ->
  (∀ pod, by_pod series !! pod
          = match filter (carries pod) series with
            | [] => None
            | l => Some (sum_values l)
            end)
  ∧ (∀ un p w w1,
       isAllowedMetric (V5.metrics p) (InfoMetric info) = true ->
       V5.fetch env un p (InfoMetric info) w = (Ok series, w1) ->
       ∃ l w2,
         V5.GetMetricBySelector env un p namespace selector info w = (Ok l, w2)
         ∧ reported l = expected_report env ref_of series podNames)
  ∧ (∀ un p w w1,
       isAllowedMetric (Prom.metrics p) (InfoMetric info) = true ->
       Prom.fetch env un p (InfoMetric info) w = (Ok series, w1) ->
       ∃ l w2,
         Prom.GetMetricBySelector env un p namespace selector info w = (Ok l, w2)
         ∧ reported l = expected_report env ref_of series podNames).
Proof.
  intros Hlist Href. split; [apply by_pod_lookup|].
  split; intros un p w w1 Hal Hfetch.
  - rewrite (V5_GetMetricBySelector_allowed env un p _ _ info w series w1 Hal Hfetch).
    destruct (values_for_selector_report env namespace selector info series
                podNames ref_of w1 Hlist Href) as (l & w2 & Hrun & Hrep & _).
    by exists l, w2.
  - rewrite (Prom_GetMetricBySelector_allowed env un p _ _ info w series w1 Hal Hfetch).
    destruct (values_for_selector_report env namespace selector info series
                podNames ref_of w1 Hlist Href) as (l & w2 & Hrun & Hrep & _).
    by exists l, w2.
Qed.

Lemma GetMetricBySelector_sums_per_pod_witness :
  (∃ l w2,
     V5.GetMetricBySelector Stub.cluster (Stub.v5_decoder Stub.group_v5)
       (Stub.v5_provider "") "default" "app=web" (Stub.pods_info Stub.metric) World0
     = (Ok l, w2)
     ∧ reported l
       = expected_report Stub.cluster (fun podName => Stub.pod_ref (Stub.pod podName))
           (Stub.series_v5 Stub.group_v5) Stub.group_pods)
  ∧ expected_report Stub.cluster (fun podName => Stub.pod_ref (Stub.pod podName))
      (Stub.series_v5 Stub.group_v5) Stub.group_pods
    = [(Stub.pod_ref (Stub.pod "pod-a"), NewMilliQuantity 5000);
       (Stub.pod_ref (Stub.pod "pod-b"), NewMilliQuantity 10000)].
Proof.
  split; [|vm_compute; reflexivity].
  refine (proj1 (proj2 (GetMetricBySelector_sums_per_pod Stub.cluster
                          "default" "app=web" (Stub.pods_info Stub.metric)
                          (Stub.series_v5 Stub.group_v5) Stub.group_pods
                          (fun podName => Stub.pod_ref (Stub.pod podName)) _ _))
            (Stub.v5_decoder Stub.group_v5) (Stub.v5_provider "") World0
            (Stub.fetched_v5 Stub.group_v5) _ _).
  - reflexivity.
  - intros podName _. reflexivity.
  - reflexivity.
  - vm_compute. reflexivity.
Defined.

(** ** Metrics outside the allow-list *)

(** C4, as the code has it. For a metric that is not on the allow-list,
    [GetMetricByName] reports the metric as not found and
    [GetMetricBySelector] answers an empty list of values without error;
    neither hands a request to the transport (the world is left as it was). *)
Theorem unknown_metric_stays_local env name namespace selector info :
  (∀ un p w,
     isAllowedMetric (V5.metrics p) (InfoMetric info) = false ->
     V5.GetMetricByName env un p name info w
     = (Err (MetricNotFoundForError (Group (InfoGroupResource info))
               (Resource (InfoGroupResource info)) (InfoMetric info) (Name name)), w)
     ∧ V5.GetMetricBySelector env un p namespace selector info w
       = (Ok {| Items := [] |}, w))
  ∧ (∀ un p w,
       isAllowedMetric (Prom.metrics p) (InfoMetric info) = false ->
       Prom.GetMetricByName env un p name info w
       = (Err (MetricNotFoundForError (Group (InfoGroupResource info))
                 (Resource (InfoGroupResource info)) (InfoMetric info) (Name name)), w)
       ∧ Prom.GetMetricBySelector env un p namespace selector info w
         = (Ok {| Items := [] |}, w)).
Proof.
  split; intros un p w Hno.
  - unfold V5.GetMetricByName, V5.GetMetricBySelector. by rewrite Hno.
  - unfold Prom.GetMetricByName, Prom.GetMetricBySelector. by rewrite Hno.
Qed.

Lemma unknown_metric_stays_local_witness :
  V5.GetMetricByName Stub.cluster (Stub.v5_decoder Stub.group_v5)
    (Stub.v5_provider "") Stub.target Stub.unknown World0
  = (Err (MetricNotFoundForError (Group (InfoGroupResource Stub.unknown))
            (Resource (InfoGroupResource Stub.unknown)) (InfoMetric Stub.unknown)
            (Name Stub.target)), World0)
  ∧ V5.GetMetricBySelector Stub.cluster (Stub.v5_decoder Stub.group_v5)
      (Stub.v5_provider "") "default" "app=web" Stub.unknown World0
    = (Ok {| Items := [] |}, World0).
Proof.
  refine (proj1 (unknown_metric_stays_local Stub.cluster Stub.target
                   "default" "app=web" Stub.unknown)
            (Stub.v5_decoder Stub.group_v5) (Stub.v5_provider "") World0 _).
  reflexivity.
Defined.

(** C4, as stated, fails for the selector operation: on a metric outside the
    allow-list it answers [Ok] with no items, in both providers, not an
    error of any kind. *)
Lemma GetMetricBySelector_unknown_metric_is_ok :
  isAllowedMetric (V5.metrics (Stub.v5_provider "")) (InfoMetric Stub.unknown) = false
  ∧ V5.GetMetricBySelector Stub.cluster (Stub.v5_decoder Stub.group_v5)
      (Stub.v5_provider "") "default" "app=web" Stub.unknown World0
    = (Ok {| Items := [] |}, World0)
  ∧ isAllowedMetric (Prom.metrics (Stub.prom_provider ∅)) (InfoMetric Stub.unknown) = false
  ∧ Prom.GetMetricBySelector Stub.cluster
      (Stub.prom_decoder (Stub.prom_response "success" []))
      (Stub.prom_provider ∅) "default" "app=web" Stub.unknown World0
    = (Ok {| Items := [] |}, World0).
Proof. repeat split; vm_compute; reflexivity. Qed.

(** ** The status the backend reports *)

(** The Prometheus-style client turns a decoded answer whose status is not
    the success marker into an error that carries the status; no series
    come back.  The request has been sent by then. *)
Lemma Prom_query_rejected env un client opts w resp body promResp parsed :
  (∀ s, url_Parse env s = Ok (parsed s)) ->
  (∀ req, http_Do env req = Ok resp) ->
  StatusCode resp = 200 ->
  Body resp = Ok body ->
  un body = Ok promResp ->
  Prom.Status promResp ≠ "success" ->
  ∃ w',
    Prom.query env un client opts w
    = (Err (Errorf "query failed with status: %s" [ArgStr (Prom.Status promResp)]), w')
    ∧ calls w' = S (calls w) ∧ warnings w' = warnings w.
Proof.
  intros Hparse Hdo Hcode Hbody Hun Hstatus.
  eexists. unfold Prom.query, bind, wrap, wrapM, Client_Do, http_NewRequest, fail.
  rewrite !Hparse, Hdo, Hbody, Hcode, Hun. cbn.
  destruct (decide (Prom.Status promResp ≠ "success")); [|done].
  done.
Qed.

(** The v5 client hands back whatever decodes, whatever its status says. *)
Lemma V5_Query_any_status env un client query w resp body responseData parsed :
  (∀ s, url_Parse env s = Ok (parsed s)) ->
  (∀ req, http_Do env req = Ok resp) ->
  StatusCode resp = 200 ->
  Body resp = Ok body ->
  un body = Ok responseData ->
  ∃ w',
    V5.Query env un client query w = (Ok responseData, w')
    ∧ calls w' = S (calls w) ∧ warnings w' = warnings w.
Proof.
  intros Hparse Hdo Hcode Hbody Hun.
  eexists. unfold V5.Query, bind, wrap, wrapM, Client_Do, http_NewRequest, fail, ret.
  rewrite !Hparse, Hdo, Hbody, Hcode, Hun. cbn. done.
Qed.

(** A body the decoder refuses (a sample whose value is no number is one,
    [Value] being a [float64]) fails the whole v5 query. *)
Lemma V5_Query_decode_failure env un client query w resp body err parsed :
  (∀ s, url_Parse env s = Ok (parsed s)) ->
  (∀ req, http_Do env req = Ok resp) ->
  StatusCode resp = 200 ->
  Body resp = Ok body ->
  un body = Err err ->
  (V5.Query env un client query w).1
  = Err (Errorf "failed to decode response body: %w" [ArgErr err]).
Proof.
  intros Hparse Hdo Hcode Hbody Hun.
  unfold V5.Query, bind, wrap, wrapM, Client_Do, http_NewRequest, fail, ret.
  rewrite !Hparse, Hdo, Hbody, Hcode, Hun. cbn. done.
Qed.

(** C6, at the input where the v5 client departs from it: the backend
    answers 200 with a body that decodes to status "error" and one series
    worth 3 for the target pod.  [SignozClient.Query] returns the response
    as a success and [GetMetricByName] reports 3 for the pod, where the
    Prometheus-style client returns the error that carries the status. *)
Theorem V5_Query_accepts_failed_status :
  (V5.Query Stub.cluster (Stub.v5_decoder Stub.failed_v5)
     (V5.signoz (Stub.v5_provider "")) 
     {| V5.Start := 0; V5.End_ := 0; V5.RequestType := "time_series";
        V5.CompositeQuery :=
          {| V5.Queries := [V5.build_SignozQuery (Stub.v5_provider "") Stub.metric] |} |}
     World0).1
  = Ok Stub.failed_v5
  ∧ V5.Status Stub.failed_v5 ≠ "success"
  ∧ MetricQuantity <$>
      match (V5.GetMetricByName Stub.cluster (Stub.v5_decoder Stub.failed_v5)
               (Stub.v5_provider "") Stub.target (Stub.pods_info Stub.metric) World0).1 with
      | Ok mv => Some mv
      | Err _ => None
      end
    = Some (NewMilliQuantity 3000)
  ∧ (Prom.query Stub.cluster (Stub.prom_decoder Stub.failed_prom)
       (Prom.signoz (Stub.prom_provider ∅)) Stub.prom_options World0).1
    = Err (Errorf "query failed with status: %s" [ArgStr "error"]).
Proof.
  split; [vm_compute; reflexivity|].
  split; [discriminate|].
  split; vm_compute; reflexivity.
Qed.

(** ** Normalisation *)

Lemma foldl_app_bind {A B} (f : A -> list B) (l : list A) (acc : list B) :
  foldl (fun results x => results ++ f x) acc l = acc ++ (l ≫= f).
Proof.
  revert acc. induction l as [|x l IH]; intros acc; cbn [foldl].
  - by rewrite app_nil_r.
  - rewrite IH, bind_cons. by rewrite app_assoc.
Qed.

Lemma foldl_bind_bind {A B} (g : list B -> A -> list B) (f : A -> list B)
    (l : list A) (acc : list B) :
  (∀ results x, g results x = results ++ f x) ->
  foldl g acc l = acc ++ (l ≫= f).
Proof.
  intros Hg. revert acc. induction l as [|x l IH]; intros acc; cbn [foldl].
  - by rewrite app_nil_r.
  - rewrite IH, Hg, bind_cons. by rewrite app_assoc.
Qed.

Lemma bind_bind_list {A B C} (g : A -> list B) (f : B -> list C) (l : list A) :
  (l ≫= g) ≫= f = l ≫= (fun x => g x ≫= f).
Proof.
  induction l as [|x l IH]; [done|].
  by rewrite !bind_cons, bind_app, IH.
Qed.

Lemma V5_Series_flat env resp :
  V5.Series env resp = all_series resp ≫= V5.Series_of env.
Proof.
  unfold V5.Series, all_series.
  rewrite (foldl_bind_bind _
             (fun qr => V5.ResultAggregations qr
                        ≫= (fun agg => V5.AggSeries agg ≫= V5.Series_of env))).
  - cbn [app]. rewrite bind_bind_list.
    induction (V5.Results (V5.WrapperData (V5.Data resp))) as [|qr l IH]; [done|].
    by rewrite !bind_cons, IH, bind_bind_list.
  - intros results qr.
    apply (foldl_bind_bind _ (fun agg => V5.AggSeries agg ≫= V5.Series_of env)).
    intros results' agg. apply foldl_app_bind.
Qed.

Lemma omap_cons_match {A B} (f : A -> option B) (x : A) (l : list A) :
  omap f (x :: l) = match f x with Some y => y :: omap f l | None => omap f l end.
Proof. reflexivity. Qed.

Lemma Series_loop_spec env rs results w :
  Prom.Series_loop env rs results w
  = (Ok (results ++ omap (kept env) rs),
     {| sent := sent w;
        warnings := reverse (omap (warned env) rs) ++ warnings w;
        clock := clock w |}).
Proof.
  revert results w. induction rs as [|r rs IH]; intros results w.
  - cbn. rewrite app_nil_r. by destruct w.
  - cbn [Prom.Series_loop]. rewrite !omap_cons_match. unfold kept at 1, warned at 1.
    destruct (decide (Prom.selected_raw r = "")) as [Hraw|Hraw]; [apply IH|].
    destruct (strconv_ParseFloat env (Prom.selected_raw r)) as [v|err].
    + rewrite IH. by rewrite <- app_assoc.
    + unfold bind, klog_Warningf. rewrite IH. cbn [sent warnings clock warn].
      by rewrite reverse_cons, <- app_assoc.
Qed.






(** ** The query *)

Lemma V5_buildQuery_runs env p metricName w :
  V5.buildQuery env p metricName w
  = (Ok {| V5.RequestType := "time_series";
           V5.Start := (wallclock env (clock w) + lookback (V5.timeRangeMinutes p))
                       / 1000000;
           V5.End_ := wallclock env (S (clock w)) / 1000000;
           V5.CompositeQuery :=
             {| V5.Queries := [V5.build_SignozQuery p metricName] |} |},
     tick (tick w)).
Proof. reflexivity. Qed.

(** C8. The query built for a metric carries the configured filter
    expression, unchanged, as the filter of the query when the expression is
    not empty, and has no filter at all (no member of that name in the
    document sent) when it is empty.  The Prometheus-style builder likewise
    appends the label filters in braces, values unchanged, and appends
    nothing, not even braces, when there are none. *)
Theorem buildQuery_filter env :
  (∀ p metricName w,
     ∃ opts w',
       V5.buildQuery env p metricName w = (Ok opts, w')
       ∧ V5.Queries (V5.CompositeQuery opts) = [V5.build_SignozQuery p metricName])
  ∧ (∀ p metricName,
       V5.filterExpression p ≠ "" ->
       V5.Filter (V5.Spec (V5.build_SignozQuery p metricName))
       = Some {| V5.Expression := V5.filterExpression p |}
       ∧ json_field "filter" (V5.Marshal_Spec (V5.Spec (V5.build_SignozQuery p metricName)))
         = Some (JObject [("expression", JString (V5.filterExpression p))]))
  ∧ (∀ p metricName,
       V5.filterExpression p = "" ->
       V5.Filter (V5.Spec (V5.build_SignozQuery p metricName)) = None
       ∧ json_field "filter" (V5.Marshal_Spec (V5.Spec (V5.build_SignozQuery p metricName)))
         = None)
  ∧ (∀ p metric, Prom.labelFilters p = ∅ -> Prom.buildQuery p metric = metric)
  ∧ (∀ p metric,
       Prom.labelFilters p ≠ ∅ ->
       Prom.buildQuery p metric
       = metric +:+ "{" +:+ String.concat "," (selectors (Prom.labelFilters p)) +:+ "}").
Proof.
  split. { intros p metricName w. eexists _, _. by rewrite V5_buildQuery_runs. }
  split; [|split; [|split]].
  - intros p metricName Hne. unfold V5.build_SignozQuery.
    destruct (decide (V5.filterExpression p ≠ "")); [|done].
    split; [done|]. cbn.
    repeat (case_decide; [congruence|]). case_decide; [|done].
    unfold V5.Marshal_Filter, V5.string_empty, V5.field. cbn [V5.Expression].
    by rewrite bool_decide_eq_false_2.
  - intros p metricName He. unfold V5.build_SignozQuery.
    destruct (decide (V5.filterExpression p ≠ "")); [done|].
    split; vm_compute; reflexivity.
  - intros p metric He. unfold Prom.buildQuery. rewrite He.
    by rewrite map_size_empty.
  - intros p metric Hne. unfold Prom.buildQuery.
    destruct (decide (size (Prom.labelFilters p) = 0%nat)) as [Hz|Hz]; [|done].
    by apply map_size_empty_inv in Hz.
Qed.

Lemma buildQuery_filter_witness :
  (V5.Filter (V5.Spec (V5.build_SignozQuery (Stub.v5_provider "env = 'prod'") Stub.metric))
   = Some {| V5.Expression := V5.filterExpression (Stub.v5_provider "env = 'prod'") |}
   ∧ json_field "filter"
       (V5.Marshal_Spec
          (V5.Spec (V5.build_SignozQuery (Stub.v5_provider "env = 'prod'") Stub.metric)))
     = Some (JObject [("expression",
                       JString (V5.filterExpression (Stub.v5_provider "env = 'prod'")))]))
  ∧ (V5.Filter (V5.Spec (V5.build_SignozQuery (Stub.v5_provider "") Stub.metric)) = None
     ∧ json_field "filter"
         (V5.Marshal_Spec (V5.Spec (V5.build_SignozQuery (Stub.v5_provider "") Stub.metric)))
       = None)
  ∧ Prom.buildQuery (Stub.prom_provider ∅) Stub.metric = Stub.metric
  ∧ Prom.buildQuery (Stub.prom_provider Stub.prod_filters) "m"
    = "m{deployment.environment=" +:+ dquote +:+ "prod" +:+ dquote
      +:+ ",service.name=" +:+ dquote +:+ "myapp" +:+ dquote +:+ "}".
Proof.
  split; [|split; [|split]].
  - refine (proj1 (proj2 (buildQuery_filter Stub.cluster))
              (Stub.v5_provider "env = 'prod'") Stub.metric _).
    discriminate.
  - refine (proj1 (proj2 (proj2 (buildQuery_filter Stub.cluster)))
              (Stub.v5_provider "") Stub.metric _).
    reflexivity.
  - refine (proj1 (proj2 (proj2 (proj2 (buildQuery_filter Stub.cluster))))
              (Stub.prom_provider ∅) Stub.metric _).
    reflexivity.
  - vm_compute. reflexivity.
Defined.

(** ** Thousandths *)

Lemma trunc_finite_quot s m e :
  trunc_finite s m e
  = Z.quot (Qnum (let q := if 0 <=? e then (Z.pos m * 2 ^ e) # 1
                           else Z.pos m # Z.to_pos (2 ^ (- e)) in
                  if s then Qopp q else q))
           (QDen (let q := if 0 <=? e then (Z.pos m * 2 ^ e) # 1
                           else Z.pos m # Z.to_pos (2 ^ (- e)) in
                  if s then Qopp q else q)).
Proof.
  unfold trunc_finite. cbv zeta.
  destruct (Z.leb_spec 0 e) as [He|He].
  - destruct s; cbn [Qnum Qden Qopp]; by rewrite Z.quot_1_r.
  - assert (0 < 2 ^ (- e)) as Hpos by (apply Z.pow_pos_nonneg; lia).
    destruct s; cbn [Qnum Qden Qopp]; rewrite Z2Pos.id by done.
    + rewrite Z.quot_opp_l by lia. f_equal. symmetry. apply Z.quot_div_nonneg; lia.
    + symmetry. apply Z.quot_div_nonneg; lia.
Qed.

(** C10, as the code has it. The value reported for a total [t] is
    [int64(t*1000)] thousandths: when the float product [t*1000] is a number
    [q] whose integer part fits [int64], the value is that integer part,
    the fraction being discarded toward zero. *)
Theorem milli_truncates env t q :
  float_value (t * 1000)%float = Some q ->
  in_int64 (Z.quot (Qnum q) (QDen q)) = true ->
  milli env t = NewMilliQuantity (Z.quot (Qnum q) (QDen q)).
Proof.
  unfold milli, float64_to_int64, float_value.
  destruct (Prim2SF (t * 1000)%float) as [sg|sg| |s m e]; try discriminate.
  - intros [= <-] _. reflexivity.
  - intros [= <-]. rewrite <- trunc_finite_quot. intros Hin. cbv zeta.
    by rewrite Hin.
Qed.

Lemma milli_truncates_witness :
  milli Stub.cluster 2.5%float = NewMilliQuantity 2500
  ∧ milli Stub.cluster (-2.5)%float = NewMilliQuantity (-2500).
Proof.
  split.
  - refine (milli_truncates Stub.cluster 2.5%float
              (5497558138880000 # 2199023255552) _ _).
    + vm_compute. reflexivity.
    + vm_compute. reflexivity.
  - refine (milli_truncates Stub.cluster (-2.5)%float
              (-5497558138880000 # 2199023255552) _ _).
    + vm_compute. reflexivity.
    + vm_compute. reflexivity.
Defined.

(** C10, as stated, fails in its last part: the totals 2047/2048 and 1 are
    less than one thousandth apart and are reported as 999 and 1000
    thousandths. *)
Lemma milli_separates_close_totals :
  ∃ q1 q2,
    float_value 0.99951171875%float = Some q1
    ∧ float_value 1%float = Some q2
    ∧ (Qabs (q1 - q2) < 1 # 1000)%Q
    ∧ milli Stub.cluster 0.99951171875%float = NewMilliQuantity 999
    ∧ milli Stub.cluster 1%float = NewMilliQuantity 1000.
Proof.
  eexists _, _. split; [vm_compute; reflexivity|].
  split; [vm_compute; reflexivity|].
  split; [vm_compute; reflexivity|].
  split; vm_compute; reflexivity.
Qed.

(** * Further properties of the providers *)

(** ** The allow-list *)

(** X1. [isAllowedMetric] answers true exactly for the configured metric
    names. *)
Theorem isAllowedMetric_elem metrics name :
  isAllowedMetric metrics name = true <-> name ∈ metrics.
Proof.
  induction metrics as [|m rest IH]; cbn [isAllowedMetric].
  - split; [discriminate|]. intros H. by apply not_elem_of_nil in H.
  - rewrite elem_of_cons. destruct (decide (m = name)) as [->|Hne].
    + split; auto.
    + rewrite IH. split; [auto|]. intros [->|H]; [done|exact H].
Qed.

Lemma ListAllMetrics_map metrics :
  ListAllMetrics metrics
  = map (fun m => {| InfoGroupResource := {| Group := ""; Resource := "pods" |};
                     InfoMetric := m; InfoNamespaced := true |}) metrics.
Proof.
  unfold ListAllMetrics.
  rewrite (foldl_bind_bind _ (fun m => [{| InfoGroupResource := {| Group := ""; Resource := "pods" |};
                                            InfoMetric := m; InfoNamespaced := true |}]));
    [|done].
  cbn [app]. induction metrics as [|m rest IH]; [done|].
  by rewrite bind_cons, IH.
Qed.

Lemma ListAllExternalMetrics_map metrics :
  ListAllExternalMetrics metrics = map (fun m => {| ExternalMetric := m |}) metrics.
Proof.
  unfold ListAllExternalMetrics.
  rewrite (foldl_bind_bind _ (fun m => [{| ExternalMetric := m |}])); [|done].
  cbn [app]. induction metrics as [|m rest IH]; [done|].
  by rewrite bind_cons, IH.
Qed.

(** X2. The metrics a provider advertises, as custom and as external
    metrics, are the configured names, each once per occurrence and in the
    configured order; every custom metric advertised is a namespaced metric
    of pods in the core group, and is one [isAllowedMetric] accepts. *)
Theorem ListAllMetrics_is_allow_list metrics :
  map InfoMetric (ListAllMetrics metrics) = metrics
  ∧ map ExternalMetric (ListAllExternalMetrics metrics) = metrics
  ∧ (∀ info, info ∈ ListAllMetrics metrics ->
       InfoGroupResource info = {| Group := ""; Resource := "pods" |}
       ∧ InfoNamespaced info = true
       ∧ isAllowedMetric metrics (InfoMetric info) = true).
Proof.
  rewrite ListAllMetrics_map, ListAllExternalMetrics_map.
  split; [|split].
  - rewrite <- list_fmap_compose. apply list_fmap_id.
  - rewrite <- list_fmap_compose. apply list_fmap_id.
  - intros info Hin. apply list_elem_of_fmap in Hin as (m & -> & Hm).
    cbn. split; [done|]. split; [done|]. by apply isAllowedMetric_elem.
Qed.

(** ** One request at most *)

Section Sends.
Context {A B : Type}.

Lemma sends_ret n (a : A) : sends_at_most n (ret a).
Proof. intros w. exists []. split; [done|cbn; lia]. Qed.

Lemma sends_fail n e : sends_at_most n (@fail A e).
Proof. intros w. exists []. split; [done|cbn; lia]. Qed.

Lemma sends_lift n (r : result A) : sends_at_most n (lift r).
Proof. intros w. exists []. split; [done|cbn; lia]. Qed.

Lemma sends_wrap n format (r : result A) : sends_at_most n (wrap format r).
Proof. intros w. exists []. split; [by destruct r|cbn; lia]. Qed.

Lemma sends_wrapM n format (m : M A) :
  sends_at_most n m -> sends_at_most n (wrapM format m).
Proof.
  intros Hm w. destruct (Hm w) as (reqs & Hs & Hl). exists reqs.
  unfold wrapM. by destruct (m w) as [[a|e] w'].
Qed.

(** Steps that do not send may come before a computation ... *)
Lemma sends_bind_before n (m : M A) (k : A -> M B) :
  sends_at_most 0 m -> (∀ a, sends_at_most n (k a)) -> sends_at_most n (bind m k).
Proof.
  intros Hm Hk w. destruct (Hm w) as (reqs & Hs & Hl).
  destruct reqs; [|cbn in Hl; lia]. unfold bind.
  destruct (m w) as [[a|e] w'] eqn:Hmw; cbn in Hs.
  - destruct (Hk a w') as (reqs' & Hs' & Hl'). exists reqs'. by rewrite Hs', Hs.
  - exists []. split; [done|cbn; lia].
Qed.

(** ... and after it. *)
Lemma sends_bind_after n (m : M A) (k : A -> M B) :
  sends_at_most n m -> (∀ a, sends_at_most 0 (k a)) -> sends_at_most n (bind m k).
Proof.
  intros Hm Hk w. destruct (Hm w) as (reqs & Hs & Hl). unfold bind.
  destruct (m w) as [[a|e] w'] eqn:Hmw; cbn in Hs.
  - destruct (Hk a w') as (reqs' & Hs' & Hl').
    destruct reqs'; [|cbn in Hl'; lia]. exists reqs. by rewrite Hs', Hs.
  - by exists reqs.
Qed.
End Sends.

Lemma sends_time_Now n env : sends_at_most n (time_Now env).
Proof. intros w. exists []. split; [done|cbn; lia]. Qed.

Lemma sends_klog n format args : sends_at_most n (klog_Warningf format args).
Proof. intros w. exists []. split; [done|cbn; lia]. Qed.

Lemma sends_Client_Do env req : sends_at_most 1 (Client_Do env req).
Proof. intros w. exists [req]. split; [done|cbn; lia]. Qed.

Lemma sends_Series_loop env rs results : sends_at_most 0 (Prom.Series_loop env rs results).
Proof. intros w. exists []. by rewrite Series_loop_spec. Qed.

Lemma sends_items_for env namespace info byPod podNames items :
  sends_at_most 0 (items_for env namespace info byPod podNames items).
Proof.
  revert items. induction podNames as [|podName rest IH]; intros items;
    cbn [items_for]; [apply sends_ret|].
  destruct (byPod !! podName); [|apply IH].
  apply sends_bind_before; [apply sends_lift|]. intros objRef.
  apply sends_bind_before; [apply sends_time_Now|]. intros now. apply IH.
Qed.

Create HintDb sends.
#[local] Hint Resolve sends_time_Now sends_klog sends_Series_loop sends_items_for : sends.
#[local] Hint Extern 1 (sends_at_most _ (ret _)) => apply sends_ret : sends.
#[local] Hint Extern 1 (sends_at_most _ (fail _)) => apply sends_fail : sends.
#[local] Hint Extern 1 (sends_at_most _ (lift _)) => apply sends_lift : sends.
#[local] Hint Extern 1 (sends_at_most _ (wrap _ _)) => apply sends_wrap : sends.

(** What follows the transport in each client sends nothing more. *)
Ltac after_Do :=
  apply sends_bind_after; [apply sends_wrapM, sends_Client_Do|];
  intros ?; apply sends_bind_before; [auto with sends|]; intros ?;
  case_decide; [auto with sends|];
  apply sends_bind_before; [auto with sends|]; intros ?.

Lemma sends_Prom_query env un client opts :
  sends_at_most 1 (Prom.query env un client opts).
Proof.
  unfold Prom.query.
  apply sends_bind_before; [auto with sends|]; intros u.
  apply sends_bind_before; [auto with sends|]; intros req.
  after_Do. case_decide; [auto with sends|]. apply sends_Series_loop.
Qed.

Lemma sends_V5_Query env un client query :
  sends_at_most 1 (V5.Query env un client query).
Proof.
  unfold V5.Query.
  apply sends_bind_before; [auto with sends|]; intros request.
  after_Do. auto with sends.
Qed.

Lemma sends_querySignoz env un p : sends_at_most 1 (Legacy.querySignoz env un p).
Proof.
  unfold Legacy.querySignoz.
  apply sends_bind_before; [auto with sends|]; intros now.
  apply sends_bind_before; [auto with sends|]; intros u.
  apply sends_bind_before; [auto with sends|]; intros req.
  after_Do. case_decide; [auto with sends|]. apply sends_Series_loop.
Qed.

Lemma sends_value_for_object env name info series :
  sends_at_most 0 (value_for_object env name info series).
Proof.
  unfold value_for_object.
  apply sends_bind_before; [auto with sends|]; intros objRef.
  apply sends_bind_before; auto with sends.
Qed.

Lemma sends_values_for_selector env namespace selector info series :
  sends_at_most 0 (values_for_selector env namespace selector info series).
Proof.
  unfold values_for_selector.
  apply sends_bind_before; [auto with sends|]; intros podNames.
  apply sends_bind_before; auto with sends.
Qed.

Lemma sends_V5_fetch env un p metric : sends_at_most 1 (V5.fetch env un p metric).
Proof.
  unfold V5.fetch, V5.buildQuery.
  apply sends_bind_before.
  { apply sends_bind_before; [auto with sends|]; intros t1.
    apply sends_bind_before; auto with sends. }
  intros q. apply sends_bind_after; [apply sends_V5_Query|]. auto with sends.
Qed.

Lemma sends_Prom_fetch env un p metric : sends_at_most 1 (Prom.fetch env un p metric).
Proof.
  unfold Prom.fetch.
  apply sends_bind_before; [auto with sends|]; intros end_.
  apply sends_bind_before; [auto with sends|]; intros now.
  apply sends_Prom_query.
Qed.

(** X3. Whatever the backend and the cluster answer, each operation of
    each provider hands at most one request to the transport, and leaves the
    requests sent before it in place. *)
Theorem one_request_at_most env :
  (∀ un p name info, sends_at_most 1 (V5.GetMetricByName env un p name info))
  ∧ (∀ un p namespace selector info,
       sends_at_most 1 (V5.GetMetricBySelector env un p namespace selector info))
  ∧ (∀ un p name info, sends_at_most 1 (Prom.GetMetricByName env un p name info))
  ∧ (∀ un p namespace selector info,
       sends_at_most 1 (Prom.GetMetricBySelector env un p namespace selector info))
  ∧ (∀ un p info, sends_at_most 1 (Legacy.GetExternalMetric env un p info)).
Proof.
  split; [|split; [|split; [|split]]].
  - intros. unfold V5.GetMetricByName. destruct (negb _); [auto with sends|].
    apply sends_bind_after; [apply sends_V5_fetch|]. intros.
    apply sends_value_for_object.
  - intros. unfold V5.GetMetricBySelector. destruct (negb _); [auto with sends|].
    apply sends_bind_after; [apply sends_V5_fetch|]. intros.
    apply sends_values_for_selector.
  - intros. unfold Prom.GetMetricByName. destruct (negb _); [auto with sends|].
    apply sends_bind_after; [apply sends_Prom_fetch|]. intros.
    apply sends_value_for_object.
  - intros. unfold Prom.GetMetricBySelector. destruct (negb _); [auto with sends|].
    apply sends_bind_after; [apply sends_Prom_fetch|]. intros.
    apply sends_values_for_selector.
  - intros. unfold Legacy.GetExternalMetric. case_decide; [auto with sends|].
    apply sends_bind_after; [apply sends_wrapM, sends_querySignoz|]. intros.
    apply sends_bind_before; auto with sends.
Qed.

(** ** Failures of the transport *)

Lemma bind_fails {A B} (m : M A) (k : A -> M B) w e w' :
  m w = (Err e, w') -> bind m k w = (Err e, w').
Proof. unfold bind. by intros ->. Qed.

Lemma V5_Query_transport_failure env un client query w e parsed :
  (∀ s, url_Parse env s = Ok (parsed s)) ->
  (∀ req, http_Do env req = Err e) ->
  ∃ w', V5.Query env un client query w
        = (Err (Errorf "failed post signoz query: %w" [ArgErr e]), w').
Proof.
  intros Hparse Hdo. eexists.
  unfold V5.Query, bind, wrap, wrapM, Client_Do, http_NewRequest.
  rewrite Hparse, Hdo. reflexivity.
Qed.

Lemma Prom_query_transport_failure env un client opts w e parsed :
  (∀ s, url_Parse env s = Ok (parsed s)) ->
  (∀ req, http_Do env req = Err e) ->
  ∃ w', Prom.query env un client opts w
        = (Err (Errorf "querying signoz: %w" [ArgErr e]), w').
Proof.
  intros Hparse Hdo. eexists.
  unfold Prom.query, bind, wrap, wrapM, Client_Do, http_NewRequest.
  rewrite !Hparse, Hdo. reflexivity.
Qed.

Lemma V5_fetch_transport_failure env un p metric w e parsed :
  (∀ s, url_Parse env s = Ok (parsed s)) ->
  (∀ req, http_Do env req = Err e) ->
  ∃ w', V5.fetch env un p metric w
        = (Err (Errorf "failed post signoz query: %w" [ArgErr e]), w').
Proof.
  intros Hparse Hdo. unfold V5.fetch.
  rewrite (bind_ok _ _ w _ _ (V5_buildQuery_runs env p metric w)).
  destruct (V5_Query_transport_failure env un (V5.signoz p)
              {| V5.RequestType := "time_series";
                 V5.Start := (wallclock env (clock w) + lookback (V5.timeRangeMinutes p))
                             / 1000000;
                 V5.End_ := wallclock env (S (clock w)) / 1000000;
                 V5.CompositeQuery :=
                   {| V5.Queries := [V5.build_SignozQuery p metric] |} |}
              (tick (tick w)) e parsed Hparse Hdo) as [w' Hq].
  exists w'. by apply bind_fails.
Qed.

Lemma Prom_fetch_transport_failure env un p metric w e parsed :
  (∀ s, url_Parse env s = Ok (parsed s)) ->
  (∀ req, http_Do env req = Err e) ->
  ∃ w', Prom.fetch env un p metric w
        = (Err (Errorf "querying signoz: %w" [ArgErr e]), w').
Proof.
  intros Hparse Hdo. unfold Prom.fetch, time_Now. unfold bind at 1 2.
  apply (Prom_query_transport_failure env un _ _ _ e parsed Hparse Hdo).
Qed.

(** X4. When the transport fails, both operations of both providers
    return the transport's error, wrapped with what was attempted, and no
    value: nothing stands in for the missing data, and neither the decoder
    nor the cluster is consulted. *)
Theorem transport_failure_is_returned env e parsed :
  (∀ s, url_Parse env s = Ok (parsed s)) ->
  (∀ req, http_Do env req = Err e) ->
  (∀ un p name namespace selector info w,
     isAllowedMetric (V5.metrics p) (InfoMetric info) = true ->
     (V5.GetMetricByName env un p name info w).1
     = Err (Errorf "failed post signoz query: %w" [ArgErr e])
     ∧ (V5.GetMetricBySelector env un p namespace selector info w).1
       = Err (Errorf "failed post signoz query: %w" [ArgErr e]))
  ∧ (∀ un p name namespace selector info w,
       isAllowedMetric (Prom.metrics p) (InfoMetric info) = true ->
       (Prom.GetMetricByName env un p name info w).1
       = Err (Errorf "querying signoz: %w" [ArgErr e])
       ∧ (Prom.GetMetricBySelector env un p namespace selector info w).1
         = Err (Errorf "querying signoz: %w" [ArgErr e])).
Proof.
  intros Hparse Hdo. split; intros un p name namespace selector info w Hal.
  - destruct (V5_fetch_transport_failure env un p (InfoMetric info) w e parsed
                Hparse Hdo) as [w' Hf].
    unfold V5.GetMetricByName, V5.GetMetricBySelector. rewrite Hal. cbn [negb].
    by rewrite !(bind_fails _ _ w _ w' Hf).
  - destruct (Prom_fetch_transport_failure env un p (InfoMetric info) w e parsed
                Hparse Hdo) as [w' Hf].
    unfold Prom.GetMetricByName, Prom.GetMetricBySelector. rewrite Hal. cbn [negb].
    by rewrite !(bind_fails _ _ w _ w' Hf).
Qed.

Lemma transport_failure_is_returned_witness :
  (V5.GetMetricByName Stub2.offline (Stub.v5_decoder Stub.group_v5)
     (Stub.v5_provider "") Stub.target (Stub.pods_info Stub.metric) World0).1
  = Err (Errorf "failed post signoz query: %w" [ArgErr Stub2.refused])
  ∧ (V5.GetMetricBySelector Stub2.offline (Stub.v5_decoder Stub.group_v5)
       (Stub.v5_provider "") "default" "app=web" (Stub.pods_info Stub.metric) World0).1
    = Err (Errorf "failed post signoz query: %w" [ArgErr Stub2.refused]).
Proof.
  refine (proj1 (transport_failure_is_returned Stub2.offline Stub2.refused
                   (fun s => s) _ _)
            (Stub.v5_decoder Stub.group_v5) (Stub.v5_provider "") Stub.target
            "default" "app=web" (Stub.pods_info Stub.metric) World0 _).
  - intros s. reflexivity.
  - intros req. reflexivity.
  - reflexivity.
Defined.

(** X5. The clients read the answer in a fixed order: a body that cannot be
    read is reported as such whatever the status code; otherwise a status
    code other than 200 is reported with the code and the body, without the
    body being decoded. *)
Theorem answer_is_checked_in_order env resp parsed :
  (∀ s, url_Parse env s = Ok (parsed s)) ->
  (∀ req, http_Do env req = Ok resp) ->
  (∀ e, Body resp = Err e ->
     (∀ un client query w,
        (V5.Query env un client query w).1
        = Err (Errorf "failed to read response body: %w" [ArgErr e]))
     ∧ (∀ un client opts w,
          (Prom.query env un client opts w).1
          = Err (Errorf "reading response: %w" [ArgErr e])))
  ∧ (∀ body, Body resp = Ok body -> StatusCode resp ≠ 200 ->
       (∀ un client query w,
          (V5.Query env un client query w).1
          = Err (Errorf "signoz returned non-OK status code: %d, body: %s"
                   [ArgInt (StatusCode resp); ArgStr body]))
       ∧ (∀ un client opts w,
            (Prom.query env un client opts w).1
            = Err (Errorf "signoz returned %d: %s"
                     [ArgInt (StatusCode resp); ArgStr body]))).
Proof.
  intros Hparse Hdo. split.
  - intros e Hbody. split; intros.
    + unfold V5.Query, bind, wrap, wrapM, Client_Do, http_NewRequest.
      by rewrite Hparse, Hdo, Hbody.
    + unfold Prom.query, bind, wrap, wrapM, Client_Do, http_NewRequest.
      by rewrite !Hparse, Hdo, Hbody.
  - intros body Hbody Hcode. split; intros.
    + unfold V5.Query, bind, wrap, wrapM, Client_Do, http_NewRequest, fail.
      rewrite Hparse, Hdo, Hbody. by destruct (decide (StatusCode resp ≠ 200)).
    + unfold Prom.query, bind, wrap, wrapM, Client_Do, http_NewRequest, fail.
      rewrite !Hparse, Hdo, Hbody. by destruct (decide (StatusCode resp ≠ 200)).
Qed.

Lemma answer_is_checked_in_order_witness :
  (V5.Query Stub2.unavailable (Stub.v5_decoder Stub.group_v5)
     (V5.signoz (Stub.v5_provider ""))
     {| V5.Start := 0; V5.End_ := 0; V5.RequestType := "time_series";
        V5.CompositeQuery := {| V5.Queries := [] |} |} World0).1
  = Err (Errorf "signoz returned non-OK status code: %d, body: %s"
           [ArgInt 503; ArgStr "busy"]).
Proof.
  refine (proj1 (proj2 (answer_is_checked_in_order Stub2.unavailable
                          {| StatusCode := 503; Body := Ok "busy" |} (fun s => s) _ _)
                   "busy" _ _)
            (Stub.v5_decoder Stub.group_v5) (V5.signoz (Stub.v5_provider "")) _ World0).
  - intros s. reflexivity.
  - intros req. reflexivity.
  - reflexivity.
  - discriminate.
Defined.

(** ** The request *)

(** X6. Once the endpoint parses, the v5 client hands the transport one
    POST to the query path of the endpoint, carrying the API key, the JSON
    content type and the marshalled query, whatever the backend then
    answers; when the endpoint does not parse, nothing is sent and the
    request is reported as invalid.  The Prometheus-style client sends one
    GET without body to the URL holding the query, the window and the step,
    carrying the API key. *)
Theorem request_carries_key_and_query env :
  (∀ un client query w u,
     url_Parse env (V5.Endpoint client +:+ "/api/v5/query_range") = Ok u ->
     ∃ req,
       sent (V5.Query env un client query w).2 = req :: sent w
       ∧ Method req = "POST"
       ∧ Target req = V5.Endpoint client +:+ "/api/v5/query_range"
       ∧ header "Signoz-Api-Key" (Header req) = Some (V5.ApiKey client)
       ∧ header "Content-Type" (Header req) = Some "application/json"
       ∧ Payload req = Some (V5.Marshal query))
  ∧ (∀ un client query w e,
       url_Parse env (V5.Endpoint client +:+ "/api/v5/query_range") = Err e ->
       V5.Query env un client query w
       = (Err (Errorf "invalid request: %w" [ArgErr e]), w))
  ∧ (∀ un client opts w u u',
       url_Parse env (Prom.endpoint client +:+ "/api/v1/query_range") = Ok u ->
       url_Parse env
         (url_String env u
            [("query", Prom.Query opts);
             ("start", pretty (Prom.Start opts / 1000000000));
             ("end", pretty (Prom.End_ opts / 1000000000));
             ("step", pretty (Prom.Step opts))]) = Ok u' ->
       ∃ req,
         sent (Prom.query env un client opts w).2 = req :: sent w
         ∧ Method req = "GET"
         ∧ Target req
           = url_String env u
               [("query", Prom.Query opts);
                ("start", pretty (Prom.Start opts / 1000000000));
                ("end", pretty (Prom.End_ opts / 1000000000));
                ("step", pretty (Prom.Step opts))]
         ∧ header "SIGNOZ-API-KEY" (Header req) = Some (Prom.apiKey client)
         ∧ Payload req = None).
Proof.
  split; [|split].
  - intros un client query w u Hparse.
    exists (Header_Set "Content-Type" "application/json"
              (Header_Set "Signoz-Api-Key" (V5.ApiKey client)
                 {| Method := "POST";
                    Target := V5.Endpoint client +:+ "/api/v5/query_range";
                    Header := []; Payload := Some (V5.Marshal query) |})).
    unfold V5.Query, bind, wrap, wrapM, Client_Do, http_NewRequest, fail, ret.
    rewrite Hparse.
    split; [|repeat split; reflexivity].
    destruct (http_Do env _) as [resp|e]; [|done].
    destruct (Body resp) as [body|e]; [|done].
    destruct (decide (StatusCode resp ≠ 200)); [done|].
    by destruct (un body).
  - intros un client query w e Hparse.
    unfold V5.Query, bind, wrap, http_NewRequest. by rewrite Hparse.
  - intros un client opts w u u' Hparse Hparse'.
    exists (Header_Set "SIGNOZ-API-KEY" (Prom.apiKey client)
              {| Method := "GET";
                 Target := url_String env u
                             [("query", Prom.Query opts);
                              ("start", pretty (Prom.Start opts / 1000000000));
                              ("end", pretty (Prom.End_ opts / 1000000000));
                              ("step", pretty (Prom.Step opts))];
                 Header := []; Payload := None |}).
    unfold Prom.query, bind, wrap, wrapM, Client_Do, http_NewRequest, fail.
    rewrite Hparse, Hparse'.
    split; [|repeat split; reflexivity].
    destruct (http_Do env _) as [resp|e]; [|done].
    destruct (Body resp) as [body|e]; [|done].
    destruct (decide (StatusCode resp ≠ 200)); [done|].
    destruct (un body) as [promResp|e]; [|done].
    destruct (decide (Prom.Status promResp ≠ "success")); [done|].
    unfold Prom.Series. by rewrite Series_loop_spec.
Qed.

Lemma request_carries_key_and_query_witness :
  ∃ req,
    sent (V5.Query Stub2.unavailable (Stub.v5_decoder Stub.group_v5)
            (V5.signoz (Stub.v5_provider ""))
            {| V5.Start := 0; V5.End_ := 0; V5.RequestType := "time_series";
               V5.CompositeQuery := {| V5.Queries := [] |} |} World0).2
    = req :: sent World0
    ∧ Method req = "POST"
    ∧ Target req
      = V5.Endpoint (V5.signoz (Stub.v5_provider "")) +:+ "/api/v5/query_range"
    ∧ header "Signoz-Api-Key" (Header req)
      = Some (V5.ApiKey (V5.signoz (Stub.v5_provider "")))
    ∧ header "Content-Type" (Header req) = Some "application/json"
    ∧ Payload req
      = Some (V5.Marshal
                {| V5.Start := 0; V5.End_ := 0; V5.RequestType := "time_series";
                   V5.CompositeQuery := {| V5.Queries := [] |} |}).
Proof.
  refine (proj1 (request_carries_key_and_query Stub2.unavailable)
            (Stub.v5_decoder Stub.group_v5) (V5.signoz (Stub.v5_provider "")) _ World0
            (V5.Endpoint (V5.signoz (Stub.v5_provider "")) +:+ "/api/v5/query_range") _).
  reflexivity.
Defined.

(** ** Labels of a v5 series *)

Lemma last_cons_match {A} (x : A) (l : list A) :
  last (x :: l) = match last l with Some y => Some y | None => Some x end.
Proof.
  destruct l as [|y l]; [done|].
  change (last (x :: y :: l)) with (last (y :: l)).
  destruct (last (y :: l)) eqn:Hl; [done|].
  by apply last_None in Hl.
Qed.

Lemma foldl_label_insert env labels (m : gmap string string) key :
  foldl (fun m l => <[V5.KeyName (V5.Key l) := V5.Sprintf_v env (V5.LabelValue l)]> m)
        m labels !! key
  = match last (omap (fun l => if decide (V5.KeyName (V5.Key l) = key)
                               then Some (V5.Sprintf_v env (V5.LabelValue l))
                               else None) labels) with
    | Some v => Some v
    | None => m !! key
    end.
Proof.
  revert m. induction labels as [|l labels IH]; intros m; [done|].
  cbn [foldl]. rewrite IH, omap_cons_match.
  destruct (decide (V5.KeyName (V5.Key l) = key)) as [<-|Hne].
  - rewrite last_cons_match, lookup_insert_eq. by destruct (last _).
  - by rewrite lookup_insert_ne.
Qed.

(** X7. The label map of a v5 series gives, for a label name, the rendering
    of the last label of that name in the series, and nothing for a name no
    label has: a repeated name keeps its last value. *)
Theorem LabelMap_lookup env s key :
  V5.LabelMap env s !! key = last (renderings env key s).
Proof.
  unfold V5.LabelMap, renderings. rewrite foldl_label_insert, lookup_empty.
  by destruct (last _).
Qed.

(** ** The window *)

Lemma int64_wrap_id z : int64_min <= z <= int64_max -> int64_wrap z = z.
Proof.
  unfold int64_min, int64_max, int64_wrap. intros Hz.
  rewrite Z.mod_small; lia.
Qed.

Lemma lookback_exact m :
  0 <= m <= max_lookback_minutes -> lookback m = - (m * 60000000000).
Proof.
  unfold max_lookback_minutes, lookback. intros Hm.
  rewrite (int64_wrap_id (- m)) by (unfold int64_min, int64_max; lia).
  rewrite int64_wrap_id by (unfold int64_min, int64_max; lia). lia.
Qed.

(** X8. For a look-back of [m] minutes, [m] between 0 and the largest
    whose nanoseconds fit [int64], the v5 query starts [60000 m]
    milliseconds before the millisecond of the first clock reading and ends
    at the millisecond of the second; when the clock does not run backwards
    between the two, the window is at least [m] minutes long. *)
Theorem buildQuery_window env p metricName w :
  0 <= V5.timeRangeMinutes p <= max_lookback_minutes ->
  ∃ opts,
    (V5.buildQuery env p metricName w).1 = Ok opts
    ∧ V5.Start opts
      = wallclock env (clock w) / 1000000 - 60000 * V5.timeRangeMinutes p
    ∧ V5.End_ opts = wallclock env (S (clock w)) / 1000000
    ∧ (wallclock env (clock w) <= wallclock env (S (clock w)) ->
       60000 * V5.timeRangeMinutes p <= V5.End_ opts - V5.Start opts).
Proof.
  intros Hm. rewrite V5_buildQuery_runs. eexists. split; [reflexivity|].
  cbn [V5.Start V5.End_]. rewrite (lookback_exact _ Hm).
  assert ((wallclock env (clock w) + - (V5.timeRangeMinutes p * 60000000000)) / 1000000
          = wallclock env (clock w) / 1000000 - 60000 * V5.timeRangeMinutes p) as ->.
  { replace (wallclock env (clock w) + - (V5.timeRangeMinutes p * 60000000000))
      with (wallclock env (clock w) + (- (60000 * V5.timeRangeMinutes p)) * 1000000)
      by lia.
    rewrite Z.div_add by lia. lia. }
  split; [done|]. split; [done|]. intros Hmono.
  pose proof (Z.div_le_mono _ _ 1000000 ltac:(lia) Hmono). lia.
Qed.

Lemma buildQuery_window_witness :
  ∃ opts,
    (V5.buildQuery Stub.cluster (Stub.v5_provider "") Stub.metric World0).1 = Ok opts
    ∧ V5.Start opts
      = wallclock Stub.cluster (clock World0) / 1000000
        - 60000 * V5.timeRangeMinutes (Stub.v5_provider "")
    ∧ V5.End_ opts = wallclock Stub.cluster (S (clock World0)) / 1000000
    ∧ (wallclock Stub.cluster (clock World0) <= wallclock Stub.cluster (S (clock World0)) ->
       60000 * V5.timeRangeMinutes (Stub.v5_provider "") <= V5.End_ opts - V5.Start opts).
Proof.
  refine (buildQuery_window Stub.cluster (Stub.v5_provider "") Stub.metric World0 _).
  vm_compute. split; discriminate.
Defined.

(** X9. Past that bound the multiplication wraps around: for a look-back
    between the bound and 300000000 minutes the offset added to the clock
    is positive, so the window starts after the instant read. *)
Theorem lookback_wraps m :
  max_lookback_minutes < m <= 300000000 ->
  lookback m = 2 ^ 64 - m * 60000000000 ∧ 0 < lookback m.
Proof.
  unfold max_lookback_minutes, lookback. intros Hm.
  rewrite (int64_wrap_id (- m)) by (unfold int64_min, int64_max; lia).
  unfold int64_wrap.
  replace (- m * 60000000000 + 2 ^ 63)
    with ((2 ^ 64 - m * 60000000000 + 2 ^ 63) + (-1) * 2 ^ 64) by lia.
  rewrite Z.mod_add by lia. rewrite Z.mod_small by lia. lia.
Qed.

Lemma lookback_wraps_witness :
  lookback 153722868 = 2 ^ 64 - 153722868 * 60000000000 ∧ 0 < lookback 153722868.
Proof.
  refine (lookback_wraps 153722868 _). vm_compute. split; [reflexivity|discriminate].
Defined.

(** ** When the cluster cannot resolve a reference *)

Lemma filter_nil_iff {A} (P : A -> Prop) `{!∀ x, Decision (P x)} (l : list A) :
  filter P l = [] <-> ¬ Exists P l.
Proof.
  split; [|apply filter_none].
  intros Hnil Hex. apply Exists_exists in Hex as (x & Hx & HP).
  by apply (filter_nil_not_elem_of P l x).
Qed.

Lemma by_pod_None series pod :
  by_pod series !! pod = None <-> ¬ Exists (carries pod) series.
Proof.
  pose proof (filter_nil_iff (carries pod) series) as Hnil.
  rewrite <- Hnil, by_pod_lookup.
  destruct (filter (carries pod) series) as [|s l]; [done|].
  split; intros [=].
Qed.

Lemma items_for_unresolved env namespace info series podNames e :
  (∀ name, ReferenceFor env name info = Err e) ->
  ∀ items w,
    items_for env namespace info (by_pod series) podNames items w
    = (if bool_decide (Exists (fun podName => Exists (carries podName) series) podNames)
       then Err e else Ok items, w).
Proof.
  intros Href. induction podNames as [|podName rest IH]; intros items w; [done|].
  cbn [items_for].
  destruct (by_pod series !! podName) as [value|] eqn:Hv.
  - unfold bind, lift. rewrite Href.
    rewrite bool_decide_eq_true_2; [done|]. left.
    destruct (decide (Exists (carries podName) series)) as [Hex|Hno]; [done|].
    apply by_pod_None in Hno. congruence.
  - rewrite IH. apply by_pod_None in Hv.
    rewrite (bool_decide_ext _ (Exists (fun podName => Exists (carries podName) series)
                                       (podName :: rest))); [done|].
    rewrite Exists_cons. tauto.
Qed.

(** X10. When no object reference resolves, [GetMetricByName] fails with
    the resolver's error although the series were fetched, and
    [GetMetricBySelector] fails with it exactly when some listed object has
    series: objects without series are skipped before any reference is
    asked for, so a selection without data still answers an empty list. *)
Theorem unresolved_reference env namespace selector info series podNames e :
  ListObjectNames env namespace selector info = Ok podNames ->
  (∀ name, ReferenceFor env name info = Err e) ->
  (∀ un p name w w1,
     isAllowedMetric (V5.metrics p) (InfoMetric info) = true ->
     V5.fetch env un p (InfoMetric info) w = (Ok series, w1) ->
     V5.GetMetricByName env un p name info w = (Err e, w1)
     ∧ V5.GetMetricBySelector env un p namespace selector info w
       = (if bool_decide (Exists (fun podName => Exists (carries podName) series) podNames)
          then Err e else Ok {| Items := [] |}, w1))
  ∧ (∀ un p name w w1,
       isAllowedMetric (Prom.metrics p) (InfoMetric info) = true ->
       Prom.fetch env un p (InfoMetric info) w = (Ok series, w1) ->
       Prom.GetMetricByName env un p name info w = (Err e, w1)
       ∧ Prom.GetMetricBySelector env un p namespace selector info w
         = (if bool_decide (Exists (fun podName => Exists (carries podName) series) podNames)
            then Err e else Ok {| Items := [] |}, w1)).
Proof.
  intros Hlist Href.
  assert (∀ name w1, value_for_object env name info series w1 = (Err e, w1)) as Hone.
  { intros name w1. unfold value_for_object, bind, lift. by rewrite Href. }
  assert (∀ w1, values_for_selector env namespace selector info series w1
                = (if bool_decide (Exists (fun podName => Exists (carries podName) series)
                                          podNames)
                   then Err e else Ok {| Items := [] |}, w1)) as Hall.
  { intros w1. unfold values_for_selector, lift. unfold bind at 1. rewrite Hlist.
    unfold bind. rewrite (items_for_unresolved env namespace info series podNames e Href).
    by destruct (bool_decide _). }
  split; intros un p name w w1 Hal Hfetch; split.
  - by rewrite (V5_GetMetricByName_allowed env un p name info w series w1 Hal Hfetch).
  - by rewrite (V5_GetMetricBySelector_allowed env un p _ _ info w series w1 Hal Hfetch).
  - by rewrite (Prom_GetMetricByName_allowed env un p name info w series w1 Hal Hfetch).
  - by rewrite (Prom_GetMetricBySelector_allowed env un p _ _ info w series w1 Hal Hfetch).
Qed.

Lemma unresolved_reference_witness :
  V5.GetMetricByName Stub2.unmapped (Stub.v5_decoder Stub.group_v5)
    (Stub.v5_provider "") Stub.target (Stub.pods_info Stub.metric) World0
  = (Err Stub2.no_mapping, Stub.fetched_v5 Stub.group_v5)
  ∧ V5.GetMetricBySelector Stub2.unmapped (Stub.v5_decoder Stub.group_v5)
      (Stub.v5_provider "") "default" "app=web" (Stub.pods_info Stub.metric) World0
    = (if bool_decide (Exists (fun podName =>
                                 Exists (carries podName) (Stub.series_v5 Stub.group_v5))
                              Stub.group_pods)
       then Err Stub2.no_mapping else Ok {| Items := [] |},
       Stub.fetched_v5 Stub.group_v5).
Proof.
  refine (proj1 (unresolved_reference Stub2.unmapped "default" "app=web"
                   (Stub.pods_info Stub.metric) (Stub.series_v5 Stub.group_v5)
                   Stub.group_pods Stub2.no_mapping _ _)
            (Stub.v5_decoder Stub.group_v5) (Stub.v5_provider "") Stub.target World0
            (Stub.fetched_v5 Stub.group_v5) _ _).
  - reflexivity.
  - intros name. reflexivity.
  - reflexivity.
  - vm_compute. reflexivity.
Defined.

(** ** One object and the group *)

(** X11. For an object name that is not empty, the total the group
    operation keeps for the name is the value the single-object operation
    computes whenever some series carries the name; when none does the group
    has no total for it while the single-object value falls back to the sum
    of all the series. *)
Theorem by_pod_and_total_for series name :
  name ≠ "" ->
  (Exists (carries name) series -> by_pod series !! name = Some (total_for name series))
  ∧ (¬ Exists (carries name) series ->
     by_pod series !! name = None ∧ total_for name series = sum_values series).
Proof.
  intros Hne.
  assert (∀ s, carries name s <-> named name s) as Hiff.
  { intros s. symmetry. by apply named_carries. }
  split.
  - intros Hex. rewrite by_pod_lookup.
    rewrite total_for_match.
    + rewrite (list_filter_iff (named name) (carries name)) by (intros; symmetry; apply Hiff).
      pose proof (proj1 (filter_nil_iff (carries name) series)) as Hnil.
      destruct (filter (carries name) series); [|done]. by destruct Hnil.
    + eapply Exists_impl; [exact Hex|]. intros s. apply Hiff.
  - intros Hno. split; [by apply by_pod_None|].
    apply total_for_fallback. apply Forall_forall. intros s Hs Hnamed.
    apply Hno, Exists_exists. exists s. split; [done|]. by apply Hiff.
Qed.

Lemma by_pod_and_total_for_witness :
  by_pod (Stub.series_v5 Stub.group_v5) !! "pod-a"
  = Some (total_for "pod-a" (Stub.series_v5 Stub.group_v5))
  ∧ (by_pod (Stub.series_v5 Stub.group_v5) !! "pod-c" = None
     ∧ total_for "pod-c" (Stub.series_v5 Stub.group_v5)
       = sum_values (Stub.series_v5 Stub.group_v5)).
Proof.
  split.
  - refine (proj1 (by_pod_and_total_for (Stub.series_v5 Stub.group_v5) "pod-a" _) _).
    + discriminate.
    + apply (bool_decide_unpack _). vm_compute. exact I.
  - refine (proj2 (by_pod_and_total_for (Stub.series_v5 Stub.group_v5) "pod-c" _) _).
    + discriminate.
    + apply (bool_decide_unpack _). vm_compute. exact I.
Defined.

(** ** Every result is accounted for *)

Lemma kept_warned_count env rs :
  (length (omap (kept env) rs) + length (omap (warned env) rs)
   + length (filter (fun r => Prom.selected_raw r = "") rs))%nat
  = length rs.
Proof.
  induction rs as [|r rs IH]; [done|].
  rewrite !omap_cons_match, filter_cons. unfold kept at 1, warned at 1.
  destruct (decide (Prom.selected_raw r = "")); cbn [length]; [lia|].
  destruct (strconv_ParseFloat env (Prom.selected_raw r)); cbn [length]; lia.
Qed.

(** X12. The Prometheus-style normalisation accounts for every result of
    the response exactly once: the series it returns, the warnings it adds
    to the log and the results whose selected text is empty add up to the
    number of results; it sends nothing and does not read the clock. *)
Theorem Series_accounts_for_every_result env resp w :
  ∃ series logged,
    Prom.Series env resp w
    = (Ok series,
       {| sent := sent w; warnings := logged ++ warnings w; clock := clock w |})
    ∧ (length series + length logged
       + length (filter (fun r => Prom.selected_raw r = "")
                   (Prom.Result (Prom.Data resp))))%nat
      = length (Prom.Result (Prom.Data resp)).
Proof.
  eexists _, _. unfold Prom.Series. rewrite Series_loop_spec. split; [reflexivity|].
  cbn [app]. rewrite length_reverse. apply kept_warned_count.
Qed.

(** X13. The v5 normalisation returns as many entries as the response has
    series with at least one point, so it returns none exactly when every
    series of the response is without points. *)
Theorem V5_Series_count env resp :
  length (V5.Series env resp)
  = length (filter (fun s => V5.Values s ≠ []) (all_series resp))
  ∧ (V5.Series env resp = [] <-> Forall (fun s => V5.Values s = []) (all_series resp)).
Proof.
  rewrite V5_Series_flat.
  induction (all_series resp) as [|s l [IHlen IHnil]]; [by split|].
  rewrite bind_cons, filter_cons. unfold V5.Series_of at 1 3.
  destruct (V5.Values s) as [|point points] eqn:Hv.
  - cbn [last app]. destruct (decide ([] ≠ [])) as [Hne|_]; [done|].
    split; [done|]. rewrite IHnil, Forall_cons. tauto.
  - destruct (last (point :: points)) as [lastp|] eqn:Hl.
    + destruct (decide (point :: points ≠ [])) as [_|Hne]; [|by destruct Hne].
      cbn [app length]. split; [by rewrite IHlen|].
      split; [done|]. intros Hall. apply Forall_cons_1 in Hall as [Hs _]. congruence.
    + by apply last_None in Hl.
Qed.

(** ** The selectors of the Prometheus-style query *)

(** X14. The selectors written between the braces are one per configured
    label filter, each the key, an equals sign and the quoted value, and
    they follow the ascending byte order of the keys, whatever the order in
    which the filters were configured. *)
Theorem selectors_follow_sorted_keys (filters : gmap string string) :
  ∃ keys,
    selectors filters
    = map (fun k => k +:+ "=" +:+ dquote +:+ map_index filters k +:+ dquote) keys
    ∧ Sorted String.le keys
    ∧ NoDup keys
    ∧ length keys = size filters
    ∧ (∀ k, k ∈ keys <-> is_Some (filters !! k))
    ∧ (∀ k v, filters !! k = Some v ->
         k +:+ "=" +:+ dquote +:+ v +:+ dquote ∈ selectors filters).
Proof.
  exists (merge_sort String.le (map fst (map_to_list filters))).
  pose proof (merge_sort_Permutation String.le (map fst (map_to_list filters))) as Hperm.
  assert (∀ k, k ∈ merge_sort String.le (map fst (map_to_list filters))
               <-> is_Some (filters !! k)) as Hkeys.
  { intros k. rewrite Hperm, list_elem_of_fmap. split.
    - intros ([k' v] & -> & Hkv). apply elem_of_map_to_list in Hkv. by exists v.
    - intros [v Hv]. exists (k, v). split; [done|]. by apply elem_of_map_to_list. }
  split; [done|]. split; [apply Sorted_merge_sort, _|].
  split. { rewrite Hperm. apply NoDup_fst_map_to_list. }
  split. { rewrite Hperm, length_fmap. apply length_map_to_list. }
  split; [exact Hkeys|].
  intros k v Hv. unfold selectors. apply list_elem_of_fmap. exists k.
  unfold map_index. rewrite Hv. split; [done|]. apply Hkeys. by exists v.
Qed.

(** ** How far the reported value is from the product *)

Lemma div_bounds a d : 0 <= a -> 0 < d -> a / d * d <= a < (a / d + 1) * d.
Proof.
  intros Ha Hd. pose proof (Z.div_mod a d ltac:(lia)) as Hdm.
  pose proof (Z.mod_pos_bound a d Hd).
  rewrite (Z.mul_comm d) in Hdm. rewrite Z.mul_add_distr_r. lia.
Qed.

Lemma quot_bounds n d :
  0 < d ->
  Z.abs (Z.quot n d) * d <= Z.abs n < (Z.abs (Z.quot n d) + 1) * d
  ∧ 0 <= Z.quot n d * n.
Proof.
  intros Hd. destruct (Z.le_gt_cases 0 n) as [Hn|Hn].
  - rewrite Z.quot_div_nonneg by lia.
    pose proof (div_bounds n d Hn Hd). pose proof (Z.div_pos n d Hn Hd).
    rewrite !Z.abs_eq by lia. split; [lia|]. apply Z.mul_nonneg_nonneg; lia.
  - assert (Z.quot n d = - (- n / d)) as ->.
    { rewrite <- (Z.opp_involutive n) at 1. rewrite Z.quot_opp_l by lia.
      by rewrite Z.quot_div_nonneg by lia. }
    pose proof (div_bounds (- n) d ltac:(lia) Hd) as Hb.
    pose proof (Z.div_pos (- n) d ltac:(lia) Hd) as Hk.
    rewrite Z.abs_opp, (Z.abs_eq (- n / d)) by lia.
    rewrite (Z.abs_neq n) by lia. split; [exact Hb|].
    rewrite Z.mul_opp_l, <- Z.mul_opp_r. apply Z.mul_nonneg_nonneg; lia.
Qed.

(** X15. When the float product [t*1000] is a number [n/d] whose integer
    part fits [int64], the thousandths reported for [t] are never larger in
    magnitude than the product, differ from it by less than one, and do not
    have the opposite sign. *)
Theorem milli_within_one env t q :
  float_value (t * 1000)%float = Some q ->
  in_int64 (Z.quot (Qnum q) (QDen q)) = true ->
  Z.abs (MilliValue (milli env t)) * QDen q <= Z.abs (Qnum q)
  ∧ Z.abs (Qnum q) < (Z.abs (MilliValue (milli env t)) + 1) * QDen q
  ∧ 0 <= MilliValue (milli env t) * Qnum q.
Proof.
  intros Hq Hin.
  assert (MilliValue (milli env t) = Z.quot (Qnum q) (QDen q)) as ->.
  { revert Hq Hin. unfold milli, float64_to_int64, float_value. cbn [MilliValue].
    destruct (Prim2SF (t * 1000)%float) as [sg|sg| |s m e]; try discriminate.
    - by intros [= <-] _.
    - intros [= <-]. rewrite <- trunc_finite_quot. intros Hin. cbv zeta.
      by rewrite Hin. }
  pose proof (quot_bounds (Qnum q) (QDen q) ltac:(lia)). tauto.
Qed.

Lemma milli_within_one_witness :
  Z.abs (MilliValue (milli Stub.cluster (-2.5)%float))
  * QDen (-5497558138880000 # 2199023255552)
  <= Z.abs (Qnum (-5497558138880000 # 2199023255552))
  ∧ Z.abs (Qnum (-5497558138880000 # 2199023255552))
    < (Z.abs (MilliValue (milli Stub.cluster (-2.5)%float)) + 1)
      * QDen (-5497558138880000 # 2199023255552)
  ∧ 0 <= MilliValue (milli Stub.cluster (-2.5)%float)
         * Qnum (-5497558138880000 # 2199023255552).
Proof.
  refine (milli_within_one Stub.cluster (-2.5)%float
            (-5497558138880000 # 2199023255552) _ _).
  - vm_compute. reflexivity.
  - vm_compute. reflexivity.
Defined.

(** ** The first provider's external metric *)



(** X17. The first provider sends the API key header only when a key is
    configured, where the later Prometheus-style client sends the header
    with whatever key it has; in both, the request goes out once the
    endpoint and the URL built from it parse. *)
Theorem Legacy_key_only_when_configured env un p w parsed :
  (∀ s, url_Parse env s = Ok (parsed s)) ->
  ∃ req,
    sent (Legacy.querySignoz env un p w).2 = req :: sent w
    ∧ Method req = "GET"
    ∧ header "SIGNOZ-API-KEY" (Header req)
      = (if decide (Legacy.apiKey p = "") then None else Some (Legacy.apiKey p)).
Proof.
  intros Hparse.
  exists (if decide (Legacy.apiKey p ≠ "")
          then Header_Set "SIGNOZ-API-KEY" (Legacy.apiKey p)
                 {| Method := "GET";
                    Target := url_String env
                                (parsed (Legacy.endpoint p +:+ "/api/v1/query_range"))
                                [("query", Legacy.metricName);
                                 ("start", pretty ((wallclock env (clock w)
                                                    + - (30 * 60000000000)) / 1000000000));
                                 ("end", pretty (wallclock env (clock w) / 1000000000));
                                 ("step", "60")];
                    Header := []; Payload := None |}
          else {| Method := "GET";
                  Target := url_String env
                              (parsed (Legacy.endpoint p +:+ "/api/v1/query_range"))
                              [("query", Legacy.metricName);
                               ("start", pretty ((wallclock env (clock w)
                                                  + - (30 * 60000000000)) / 1000000000));
                               ("end", pretty (wallclock env (clock w) / 1000000000));
                               ("step", "60")];
                  Header := []; Payload := None |}).
  split; [|split].
  - unfold Legacy.querySignoz, bind, wrap, wrapM, Client_Do, http_NewRequest,
      time_Now, fail.
    rewrite !Hparse.
    destruct (http_Do env _) as [resp|e]; [|done].
    destruct (Body resp) as [body|e]; [|done].
    destruct (decide (StatusCode resp ≠ 200)); [done|].
    destruct (un body) as [promResp|e]; [|done].
    destruct (decide (Prom.Status promResp ≠ "success")); [done|].
    by rewrite Series_loop_spec.
  - by destruct (decide (Legacy.apiKey p ≠ "")).
  - destruct (decide (Legacy.apiKey p ≠ "")) as [Hne|He];
      destruct (decide (Legacy.apiKey p = "")) as [He'|Hne']; done.
Qed.

Lemma Legacy_key_only_when_configured_witness :
  ∃ req,
    sent (Legacy.querySignoz Stub.cluster (Stub.prom_decoder Stub.mixed_prom)
            {| Legacy.endpoint := "https://signoz.example.com"; Legacy.apiKey := "" |}
            World0).2
    = req :: sent World0
    ∧ Method req = "GET"
    ∧ header "SIGNOZ-API-KEY" (Header req)
      = (if decide (Legacy.apiKey {| Legacy.endpoint := "https://signoz.example.com";
                                     Legacy.apiKey := "" |} = "")
         then None
         else Some (Legacy.apiKey {| Legacy.endpoint := "https://signoz.example.com";
                                     Legacy.apiKey := "" |})).
Proof.
  refine (Legacy_key_only_when_configured Stub.cluster
            (Stub.prom_decoder Stub.mixed_prom)
            {| Legacy.endpoint := "https://signoz.example.com"; Legacy.apiKey := "" |}
            World0 (fun s => s) _).
  intros s. reflexivity.
Defined.
